(** * Vehicle detection front-ends

    A shallow embedding of the two presentation layers of the repository:
    the Flask API ([app.py], module [App]) and the Streamlit page
    ([app_streamlit.py], module [AppStreamlit]).

    Conventions of the embedding.
    - A Python [float] is a binary64 number.  Its finite values are rational
      numbers ([Q]); [double x] is the float nearest to a rational [x], and an
      operation on floats is the exact operation followed by [double].  The
      threshold read from a request may also be an infinity or NaN
      ([pyfloat]); the scores and the coordinates of a box are finite.  What
      lies beyond the largest finite float is outside the model.
    - A Python [dict] with literal keys is an association list in the order
      the source writes the keys; [result.names], which the code only reads
      with [.get], is a [gmap].
    - A Python exception is a value [exn] carrying what [str(e)] returns, and
      fallible code lives in [outcome].
    - The detector (ultralytics), the image decoder (PIL and numpy), the
      file system and the builtin [float()] are not code of this repository:
      they are the variables of the sections below.
    - What the code prints on standard output, and the layout of the page
      (columns, spinner), are left out. *)

From Stdlib Require Import ZArith QArith Qround Qabs Lqa String Ascii List Lia.
From stdpp Require Import gmap strings list pretty sorting.

(** ** Exceptions *)

(** [exn_msg e] is [str(e)]. *)
Record exn := Exn { exn_msg : string }.

Inductive outcome (A : Type) : Type :=
| Return (a : A)
| Raise (e : exn).
Arguments Return {A} a.
Arguments Raise {A} e.

Global Instance outcome_ret : MRet outcome := λ A a, Return a.
Global Instance outcome_bind : MBind outcome := λ A B k m,
  match m with
  | Return a => k a
  | Raise e => Raise e
  end.

(** [l[i]] on a Python list: [IndexError] out of range. *)
Definition getitem {A} (l : list A) (i : nat) : outcome A :=
  match l !! i with
  | Some x => Return x
  | None => Raise (Exn "list index out of range")
  end.

(** ** Effects

    Code that acts on the outside (calls the detector, writes to the page)
    threads the record of what it did so far, and may raise. *)

Definition Eff (E A : Type) : Type := list E → outcome A * list E.

Definition ret {E A} (a : A) : Eff E A := λ log, (Return a, log).

Definition bind {E A B} (m : Eff E A) (k : A → Eff E B) : Eff E B := λ log,
  match m log with
  | (Return a, log') => k a log'
  | (Raise e, log') => (Raise e, log')
  end.

Definition lift {E A} (o : outcome A) : Eff E A := λ log, (o, log).

Definition emit {E} (ev : E) : Eff E () := λ log, (Return (), log ++ [ev]).

(** [try: m  except Exception as e: h e] *)
Definition try_except {E A} (m : Eff E A) (h : exn → Eff E A) : Eff E A := λ log,
  match m log with
  | (Return a, log') => (Return a, log')
  | (Raise e, log') => h e log'
  end.

Notation "'let!' x ':=' m 'in' k" := (bind m (λ x, k))
  (at level 10, x name, m at level 200, k at level 200, only parsing).

(** ** Python values handed to [jsonify] *)

#[local] Set Warnings "-register-all".

Inductive json : Type :=
| JBool (b : bool)
| JInt (n : Z)
| JFloat (x : Q)
| JStr (s : string)
| JList (l : list json)
| JDict (kvs : list (string * json)).

(** [d.get(k)] on a dict written as an association list. *)
Fixpoint assoc (k : string) (kvs : list (string * json)) : option json :=
  match kvs with
  | [] => None
  | (k', v) :: kvs' => if String.eqb k k' then Some v else assoc k kvs'
  end.

Definition jget (k : string) (j : json) : option json :=
  match j with
  | JDict kvs => assoc k kvs
  | _ => None
  end.

(** ** What the detector returns

    One [Results] object per image; [boxes] iterates over its boxes.  For a
    box, [cls] is [int(box.cls)], [conf] is [float(box.conf)], and [xyxy] is
    the coordinate tensor read as rows of floats ([box.xyxy[0].tolist()] is
    its first row). *)

Record Box := {
  cls : Z;
  conf : Q;
  xyxy : list (list Q)
}.

Record Results := {
  boxes : list Box;
  names : gmap Z string
}.

(** [box.xyxy[0].tolist()] *)
Definition first_row (t : list (list Q)) : outcome (list Q) :=
  match t !! 0%nat with
  | Some row => Return row
  | None => Raise (Exn "index 0 is out of bounds for dimension 0 with size 0")
  end.

(** A box whose coordinate tensor has a first row of at least four entries,
    as every box of the detector has. *)
Definition well_formed (box : Box) : bool :=
  match xyxy box with
  | (_ :: _ :: _ :: _ :: _) :: _ => true
  | _ => false
  end.

(** The [i]-th coordinate of a box. *)
Definition coordinate (i : nat) (box : Box) : Q :=
  nth i (List.hd [] (xyxy box)) 0%Q.

(** ** Python floats *)

(** Rounding to the nearest integer, ties to the even one: the rounding of
    binary floating point, and of Python's float formatting. *)
Definition round_half_even (x : Q) : Z :=
  let f := Qfloor x in
  match (x - inject_Z f ?= 1 # 2)%Q with
  | Lt => f
  | Eq => if Z.even f then f else (f + 1)%Z
  | Gt => (f + 1)%Z
  end.

Definition is_negative (x : Q) : bool :=
  match (x ?= 0)%Q with
  | Lt => true
  | _ => false
  end.

(** For [x > 0], the exponent [e] with [2^e <= x < 2^(e+1)]. *)
Definition ilog2 (x : Q) : Z :=
  let n := Qnum x in
  let d := Z.pos (Qden x) in
  let a := Z.log2 n in
  let b := Z.log2 d in
  if (d * 2 ^ a <=? n * 2 ^ b)%Z then (a - b)%Z else (a - b - 1)%Z.

Definition pow2 (e : Z) : Q :=
  if (0 <=? e)%Z then inject_Z (2 ^ e) else 1 # Z.to_pos (2 ^ (- e)).

(** The binary64 number nearest to [x], ties to the even significand: 53
    bits of significand, exponents from -1022 on (below, the subnormal
    numbers).  A float is given by its value in lowest terms. *)
Definition double (x : Q) : Q :=
  if Qeq_bool x 0 then 0%Q
  else
    let e := Z.max (ilog2 (Qabs x)) (-1022) in
    let ulp := pow2 (e - 52) in
    let m := round_half_even (Qabs x / ulp) in
    Qred (inject_Z (if is_negative x then - m else m) * ulp).

(** The largest finite float. *)
Definition max_double : Q := inject_Z ((2 ^ 53 - 1) * 2 ^ 971).

(** A float: a finite value, an infinity or NaN. *)
Inductive pyfloat : Type :=
| Finite (x : Q)
| Infinity (negative : bool)
| NaN.

(** ** Python number formatting and reading

    [format(x, '.2%')], [format(x, '.0f')], [s.strip('%')] and the reading
    of the plain decimal numerals that formatting produces.  Formatting
    rounds the exact value of the float, ties to the even digit. *)

(** The last [d] decimal digits of [n], zero padded. *)
Fixpoint fixed_digits (d : nat) (n : N) : string :=
  match d with
  | O => ""
  | S d' => fixed_digits d' (n `div` 10)%N +:+ String (pretty_N_char (n `mod` 10)%N) ""
  end.

(** [|x|] in units of [10^-d], rounded: the digits a [.<d>f] format prints. *)
Definition scaled (d : nat) (x : Q) : N :=
  Z.to_N (round_half_even (Qabs x * inject_Z (10 ^ Z.of_nat d))).

(** [format(x, '.<d>f')] *)
Definition format_f (d : nat) (x : Q) : string :=
  let m := scaled d x in
  (if is_negative x then "-" else "")
  +:+ pretty (m `div` 10 ^ N.of_nat d)%N
  +:+ match d with
      | O => ""
      | S _ => "." +:+ fixed_digits d (m `mod` 10 ^ N.of_nat d)%N
      end.

(** [format(x, '.<d>%')]: the float [x * 100] in fixed notation, then a
    percent sign. *)
Definition format_percent (d : nat) (x : Q) : string :=
  format_f d (double (x * 100)) +:+ "%".

(** [s.lstrip(c)], [s.rstrip(c)] and [s.strip(c)] for a single character [c]. *)
Fixpoint lstrip (c : ascii) (s : string) : string :=
  match s with
  | "" => ""
  | String a s' => if Ascii.eqb a c then lstrip c s' else s
  end.

Fixpoint rstrip (c : ascii) (s : string) : string :=
  match s with
  | "" => ""
  | String a s' =>
      match rstrip c s' with
      | "" => if Ascii.eqb a c then "" else String a ""
      | t => String a t
      end
  end.

Definition strip (c : ascii) (s : string) : string := rstrip c (lstrip c s).

(** A plain decimal numeral: an optional sign, digits, and optionally a point
    followed by digits.  [read_decimal] is the number that such a string
    denotes, of which [float()] returns the nearest float; [None] stands for
    a string outside this fragment of the syntax of floats, on which the
    development says nothing. *)
Definition digit_value (a : ascii) : option N :=
  let n := N_of_ascii a in
  if (48 <=? n)%N && (n <=? 57)%N then Some (n - 48)%N else None.

(** Reads a non-empty run of digits: the number they denote and how many there are. *)
Fixpoint read_digits (s : string) (acc : N) (len : nat) : option (N * nat) :=
  match s with
  | "" => match len with O => None | S _ => Some (acc, len) end
  | String a s' =>
      match digit_value a with
      | Some v => read_digits s' (10 * acc + v)%N (S len)
      | None => None
      end
  end.

(** Splits at the first point. *)
Fixpoint split_point (s : string) : string * option string :=
  match s with
  | "" => ("", None)
  | String a s' =>
      if Ascii.eqb a "." then ("", Some s')
      else let '(i, f) := split_point s' in (String a i, f)
  end.

Definition read_unsigned (s : string) : option Q :=
  match split_point s with
  | (i, None) =>
      match read_digits i 0 0 with
      | Some (n, _) => Some (inject_Z (Z.of_N n))
      | None => None
      end
  | (i, Some f) =>
      match read_digits i 0 0, read_digits f 0 0 with
      | Some (n, _), Some (m, k) =>
          Some (Z.of_N (n * 10 ^ N.of_nat k + m) # Z.to_pos (10 ^ Z.of_nat k))
      | _, _ => None
      end
  end.

Definition read_decimal (s : string) : option Q :=
  match s with
  | "" => None
  | String a s' =>
      if Ascii.eqb a "-" then Qopp <$> read_unsigned s'
      else if Ascii.eqb a "+" then read_unsigned s'
      else read_unsigned s
  end.

(** The value of the numeral [format_f d x]: [x] rounded to [d] decimals. *)
Definition rounded (d : nat) (x : Q) : Q :=
  (if is_negative x then - Z.of_N (scaled d x) else Z.of_N (scaled d x))%Z
  # Z.to_pos (10 ^ Z.of_nat d).

(** Strings all of whose characters pass a test. *)
Fixpoint all_chars (p : ascii → bool) (s : string) : bool :=
  match s with
  | "" => true
  | String a s' => p a && all_chars p s'
  end.

Definition is_digit (a : ascii) : bool :=
  match digit_value a with
  | Some _ => true
  | None => false
  end.

Definition no_percent (a : ascii) : bool := negb (Ascii.eqb a "%").

(** ** A sample environment

    Stand-ins for the collaborators, on which the code can be run: a
    detector that finds a fixed scene in every image and keeps the boxes
    that reach the threshold, one that moreover refuses a threshold outside
    [0,1], a decoder that accepts every non-empty upload, [float()] on plain
    decimal numerals and on the names of the infinities and of NaN, the two
    ways in which [sum] adds floats, and a [result.save] that labels every
    box with the name of its class. *)

Module Sample.

Definition vehicle_names : gmap Z string :=
  list_to_map [(0%Z, "bus"); (1%Z, "car"); (2%Z, "motorcycle");
               (3%Z, "pickup-truck"); (4%Z, "semi-trailer"); (5%Z, "van")].

(** [t <= c] on floats: false when [t] is NaN. *)
Definition reaches (t : pyfloat) (c : Q) : bool :=
  match t with
  | Finite x => Qle_bool x c
  | Infinity negative => negative
  | NaN => false
  end.

Definition detector (scene : list Box) (model : unit) (image_np : list Byte.byte)
    (t : pyfloat) : outcome (list Results) :=
  Return [{| boxes := List.filter (λ box, reaches t (conf box)) scene;
             names := vehicle_names |}].

(** A detector that fails on every call. *)
Definition broken_detector (model : unit) (image_np : list Byte.byte) (t : pyfloat)
  : outcome (list Results) :=
  Raise (Exn "CUDA out of memory").

Definition in_unit_interval (t : pyfloat) : bool :=
  match t with
  | Finite x => Qle_bool 0 x && Qle_bool x 1
  | _ => false
  end.

(** A detector that checks its arguments first. *)
Definition strict_detector (scene : list Box) (model : unit)
    (image_np : list Byte.byte) (t : pyfloat) : outcome (list Results) :=
  if in_unit_interval t then detector scene model image_np t
  else Raise (Exn "'conf' is an invalid value. Valid 'conf' values are between 0.0 and 1.0.").

(** The detectors behind the slider of the page, which gives finite thresholds. *)
Definition slider (detector : unit → list Byte.byte → pyfloat → outcome (list Results))
    (model : unit) (image_np : list Byte.byte) (t : Q) : outcome (list Results) :=
  detector model image_np (Finite t).

Definition image_open (image_bytes : list Byte.byte) : outcome (list Byte.byte) :=
  match image_bytes with
  | [] => Raise (Exn "cannot identify image file")
  | _ => Return image_bytes
  end.

(** [float()] on a plain decimal numeral: the float nearest to it. *)
Definition float_of_numeral (s : string) : outcome Q :=
  match read_decimal s with
  | Some x => Return (double x)
  | None => Raise (Exn ("could not convert string to float: '" +:+ s +:+ "'"))
  end.

Definition float (s : string) : outcome pyfloat :=
  if String.eqb s "inf" then Return (Infinity false)
  else if String.eqb s "-inf" then Return (Infinity true)
  else if String.eqb s "nan" then Return NaN
  else x ← float_of_numeral s; Return (Finite x).

(** [sum] on a non-empty list of floats, from left to right, each partial
    sum rounded: CPython before 3.12. *)
Definition sum_left_to_right (xs : list Q) : Q :=
  match xs with
  | [] => 0%Q
  | x :: xs' => fold_left (λ a y, double (a + y)) xs' x
  end.

(** The same with Neumaier's compensation: CPython from 3.12 on. *)
Fixpoint neumaier (xs : list Q) (f c : Q) : Q :=
  match xs with
  | [] => if Qeq_bool c 0 then f else double (f + c)
  | x :: xs' =>
      let t := double (f + x) in
      let c' :=
        if Qle_bool (Qabs x) (Qabs f)
        then double (c + double (double (f - t) + x))
        else double (c + double (double (x - t) + f)) in
      neumaier xs' t c'
  end.

Definition sum_compensated (xs : list Q) : Q :=
  match xs with
  | [] => 0%Q
  | x :: xs' => neumaier xs' x 0
  end.

(** [result.save] and [Image.open]: the picture is the list of the labels
    drawn, and drawing the label of a class without a name is a
    [KeyError]. *)
Fixpoint labels (names : gmap Z string) (bs : list Box) : outcome (list string) :=
  match bs with
  | [] => Return []
  | box :: bs' =>
      match names !! cls box with
      | Some name => ls ← labels names bs'; Return (name :: ls)
      | None => Raise (Exn (pretty (cls box)))
      end
  end.

Definition save (result : Results) : outcome (list string) :=
  labels (names result) (boxes result).

(** A car, a bus, and an object of a class the model has no name for. *)
Definition street : list Box :=
  [{| cls := 1; conf := 9 # 10; xyxy := [[100 # 1; 120 # 1; 300 # 1; 260 # 1]] |};
   {| cls := 0; conf := 6 # 10; xyxy := [[320 # 1; 80 # 1; 600 # 1; 400 # 1]] |};
   {| cls := 7; conf := 3 # 10; xyxy := [[10 # 1; 20 # 1; 30 # 1; 40 # 1]] |}].

(** Two cars and a bus, all of classes the model names; the scores are floats. *)
Definition crossing : list Box :=
  [{| cls := 1; conf := 7 # 8; xyxy := [[100 # 1; 120 # 1; 300 # 1; 260 # 1]] |};
   {| cls := 0; conf := 5 # 8; xyxy := [[320 # 1; 80 # 1; 600 # 1; 400 # 1]] |};
   {| cls := 1; conf := 3 # 4; xyxy := [[40 # 1; 200 # 1; 90 # 1; 250 # 1]] |}].

Definition jpeg : list Byte.byte := [Byte.xff; Byte.xd8; Byte.xff; Byte.xe0].

(** A car, and a bus whose box has lost a coordinate. *)
Definition truncated : list Box :=
  [{| cls := 1; conf := 9 # 10; xyxy := [[100 # 1; 120 # 1; 300 # 1; 260 # 1]] |};
   {| cls := 0; conf := 6 # 10; xyxy := [[320 # 1; 80 # 1; 600 # 1]] |}].

End Sample.

(** ** app.py *)

Module App.

Definition MODEL_PATH : string := "best.pt".

(** A Flask view returns a body and a status; [return jsonify(d)] alone is a 200. *)
Definition Response : Type := json * Z.

Definition jsonify (d : list (string * json)) : json := JDict d.

Record Request (Upload : Type) := {
  files : gmap string Upload;
  form : gmap string string
}.
Arguments files {Upload} _.
Arguments form {Upload} _.

Section Flask.

(** The loaded [YOLO] object and the numpy array of a decoded image. *)
Context {Handle Image : Type}.
(** [os.path.exists] *)
Variable path_exists : string → bool.
(** [YOLO(path)] *)
Variable YOLO : string → outcome Handle.
(** [model.predict(image_np, conf=conf)] *)
Variable model_predict : Handle → Image → pyfloat → outcome (list Results).
(** [np.array(Image.open(io.BytesIO(image_bytes)))] *)
Variable image_open : list Byte.byte → outcome Image.
(** The builtin [float] applied to a string. *)
Variable py_float : string → outcome pyfloat.

(** *** Effects of a request: the calls made to the detector *)

Record Call := {
  call_model : Handle;
  call_image : Image;
  call_conf : pyfloat
}.

Definition call (model : Handle) (image_np : Image) (c : pyfloat) : Call :=
  {| call_model := model; call_image := image_np; call_conf := c |}.

Definition call_predict (model : Handle) (image_np : Image) (c : pyfloat)
  : Eff Call (list Results) :=
  let! _ := emit (call model image_np c) in
  lift (model_predict model image_np c).

(** *** load_model *)

Definition load_model : outcome (option Handle) :=
  if path_exists MODEL_PATH then
    model ← YOLO MODEL_PATH;
    Return (Some model)
  else
    Return None.

(** *** GET /health *)

Definition health (model : option Handle) : Response :=
  (jsonify [("status", JStr "ok");
            ("model_loaded", JBool (match model with Some _ => true | None => false end));
            ("model_path", JStr MODEL_PATH)],
   200%Z).

(** *** POST /predict *)

(** The body of the inner loop: one box of one result becomes one record. *)
Definition detection (result : Results) (box : Box) : outcome json :=
  let cls := cls box in
  let conf_score := conf box in
  let class_name := default ("Class " +:+ pretty cls) (names result !! cls) in
  bbox ← first_row (xyxy box);
  x_min ← getitem bbox 0;
  y_min ← getitem bbox 1;
  x_max ← getitem bbox 2;
  y_max ← getitem bbox 3;
  Return (JDict [("class_id", JInt cls);
                 ("class_name", JStr class_name);
                 ("confidence", JFloat conf_score);
                 ("bbox", JDict [("x_min", JFloat x_min);
                                 ("y_min", JFloat y_min);
                                 ("x_max", JFloat x_max);
                                 ("y_max", JFloat y_max)])]).

(** [for box in boxes: ... detections.append(...)] *)
Fixpoint extract_boxes (result : Results) (bs : list Box) (detections : list json)
  : outcome (list json) :=
  match bs with
  | [] => Return detections
  | box :: bs' =>
      d ← detection result box;
      extract_boxes result bs' (detections ++ [d])
  end.

(** [for result in results: ...] *)
Fixpoint extract (results : list Results) (detections : list json)
  : outcome (list json) :=
  match results with
  | [] => Return detections
  | result :: results' =>
      detections' ← extract_boxes result (boxes result) detections;
      extract results' detections'
  end.

(** [request.form.get(k, default)]: the submitted string, or the default. *)
Definition form_get {Upload} (request : Request Upload) (k : string)
    (default : pyfloat) : string + pyfloat :=
  match form request !! k with
  | Some s => inl s
  | None => inr default
  end.

(** [float(v)] for [v] a string or already a float. *)
Definition float (v : string + pyfloat) : outcome pyfloat :=
  match v with
  | inl s => py_float s
  | inr x => Return x
  end.

(** [request.files['file']] *)
Definition files_getitem {Upload} (request : Request Upload) (k : string)
  : outcome Upload :=
  match files request !! k with
  | Some f => Return f
  | None => Raise (Exn "400 Bad Request: The browser (or proxy) sent a request that this server could not understand.")
  end.

(** The statements under [try]. *)
Definition predict_try (model : option Handle) (request : Request (list Byte.byte))
  : Eff Call Response :=
  match model with
  | None => ret (jsonify [("error", JStr "Model not loaded")], 500%Z)
  | Some model =>
      match files request !! "file" with
      | None => ret (jsonify [("error", JStr "No file provided")], 400%Z)
      | Some _ =>
          let! conf := lift (float (form_get request "conf" (Finite (1 # 2)))) in
          let! image_bytes := lift (files_getitem request "file") in
          let! image_np := lift (image_open image_bytes) in
          let! results := call_predict model image_np conf in
          let! detections := lift (extract results []) in
          ret (jsonify [("detections", JList detections);
                        ("count", JInt (Z.of_nat (length detections)));
                        ("model", JStr "Vehicle Detection Model")],
               200%Z)
      end
  end.

Definition predict (model : option Handle) (request : Request (list Byte.byte))
  : Eff Call Response :=
  try_except (predict_try model request)
    (λ e, ret (jsonify [("error", JStr (exn_msg e))], 500%Z)).

(** *** What the properties of the API speak of *)

Definition error_response (msg : string) (status : Z) : Response :=
  (jsonify [("error", JStr msg)], status).

Definition success_response (detections : list json) : Response :=
  (jsonify [("detections", JList detections);
            ("count", JInt (Z.of_nat (length detections)));
            ("model", JStr "Vehicle Detection Model")],
   200%Z).

(** The record of a well formed box, and the records of a batch. *)
Definition record_of (result : Results) (box : Box) : json :=
  JDict [("class_id", JInt (cls box));
         ("class_name",
          JStr (default ("Class " +:+ pretty (cls box)) (names result !! cls box)));
         ("confidence", JFloat (conf box));
         ("bbox", JDict [("x_min", JFloat (coordinate 0 box));
                         ("y_min", JFloat (coordinate 1 box));
                         ("x_max", JFloat (coordinate 2 box));
                         ("y_max", JFloat (coordinate 3 box))])].

Definition records_of (results : list Results) : list json :=
  results ≫= λ result, record_of result <$> boxes result.

Definition all_well_formed (results : list Results) : bool :=
  forallb (λ result, forallb well_formed (boxes result)) results.

(** The shape of a response body.  [box_key] is the key under which a
    record carries its coordinates. *)
Definition is_float (o : option json) : bool :=
  match o with
  | Some (JFloat _) => true
  | _ => false
  end.

Definition box_shape (j : json) : bool :=
  match j with
  | JDict kvs =>
      (length kvs =? 4)%nat
      && is_float (assoc "x_min" kvs) && is_float (assoc "y_min" kvs)
      && is_float (assoc "x_max" kvs) && is_float (assoc "y_max" kvs)
  | _ => false
  end.

Definition record_shape (box_key : string) (j : json) : bool :=
  match j with
  | JDict kvs =>
      (length kvs =? 4)%nat
      && match assoc "class_id" kvs, assoc "class_name" kvs,
               assoc "confidence" kvs, assoc box_key kvs with
         | Some (JInt _), Some (JStr _), Some (JFloat c), Some b =>
             Qle_bool 0 c && Qle_bool c 1 && box_shape b
         | _, _, _, _ => false
         end
  | _ => false
  end.

Definition response_shape (box_key : string) (body : json) : bool :=
  match body with
  | JDict kvs =>
      (length kvs =? 3)%nat
      && match assoc "detections" kvs, assoc "count" kvs, assoc "model" kvs with
         | Some (JList ds), Some (JInt _), Some (JStr m) =>
             forallb (record_shape box_key) ds
             && String.eqb m "Vehicle Detection Model"
         | _, _, _ => false
         end
  | _ => false
  end.

(** The shape as the specification words it, and as the code emits it. *)
Definition documented_shape : json → bool := response_shape "bounding_box".
Definition emitted_shape : json → bool := response_shape "bbox".

(** Modelled from the spec: the filtering done inside [model.predict], which
    belongs to the ultralytics library and is not in the repository.  The
    specification calls the confidence threshold the "minimum score a
    detection must reach to be included in the response": called with a
    threshold in [0,1], the detector returns only boxes that reach it. *)
Definition honours_threshold : Prop :=
  ∀ model image_np t results,
    (0 <= t <= 1)%Q →
    model_predict model image_np (Finite t) = Return results →
    ∀ result box, result ∈ results → box ∈ boxes result → (t <= conf box)%Q.

(** Modelled from the spec: the range of the scores [model.predict]
    returns ("confidence: float in [0,1]"). *)
Definition scores_in_unit_interval : Prop :=
  ∀ model image_np t results,
    model_predict model image_np t = Return results →
    ∀ result box, result ∈ results → box ∈ boxes result → (0 <= conf box <= 1)%Q.

End Flask.

(** *** The API on the sample environment *)

Definition sample_predict (scene : list Box) :=
  predict (Sample.detector scene) Sample.image_open Sample.float.

(** The same behind the detector that checks its arguments. *)
Definition strict_predict (scene : list Box) :=
  predict (Sample.strict_detector scene) Sample.image_open Sample.float.

Definition upload (conf_field : option string) : Request (list Byte.byte) :=
  {| files := {["file" := Sample.jpeg]};
     form := match conf_field with
             | Some s => {["conf" := s]}
             | None => ∅
             end |}.

Definition no_upload : Request (list Byte.byte) := {| files := ∅; form := ∅ |}.

Definition record (class_id : Z) (class_name : string) (confidence : Q)
    (box_key : string) (x_min y_min x_max y_max : Z) : json :=
  JDict [("class_id", JInt class_id);
         ("class_name", JStr class_name);
         ("confidence", JFloat confidence);
         (box_key, JDict [("x_min", JFloat (x_min # 1));
                          ("y_min", JFloat (y_min # 1));
                          ("x_max", JFloat (x_max # 1));
                          ("y_max", JFloat (y_max # 1))])].

(** The body answered for the street scene at threshold 0.5. *)
Definition street_body : json :=
  JDict [("detections",
          JList [record 1 "car" (9 # 10) "bbox" 100 120 300 260;
                 record 0 "bus" (6 # 10) "bbox" 320 80 600 400]);
         ("count", JInt 2);
         ("model", JStr "Vehicle Detection Model")].

End App.

(** ** app_streamlit.py *)

Module AppStreamlit.

(** A line of the table of detections: every cell is a string. *)
Record Row := {
  Classe : string;
  Confiance : string;
  X_min : string;
  Y_min : string;
  X_max : string;
  Y_max : string
}.

(** The value of [st.metric]: an integer or a formatted string. *)
Inductive metric_value : Type :=
| MInt (n : nat)
| MStr (s : string).

(** What the script puts on the page. *)
Inductive element (Picture : Type) : Type :=
| header (body : string)
| subheader (body : string)
| image (picture : Picture) (caption : string)
| success (body : string)
| warning (body : string)
| info (body : string)
| error (body : string)
| dataframe (df : list Row)
| bar_chart (data : list (string * nat))
| metric (label : string) (value : metric_value).
Arguments header {Picture} body.
Arguments subheader {Picture} body.
Arguments image {Picture} picture caption.
Arguments success {Picture} body.
Arguments warning {Picture} body.
Arguments info {Picture} body.
Arguments error {Picture} body.
Arguments dataframe {Picture} df.
Arguments bar_chart {Picture} data.
Arguments metric {Picture} label value.

(** A number: an [int] or a finite [float]. *)
Inductive number : Type :=
| Int (n : Z)
| Float (x : Q).

Definition value (a : number) : Q :=
  match a with
  | Int n => inject_Z n
  | Float x => x
  end.

(** [x / y]: the float nearest to the quotient, and [ZeroDivisionError]
    when [y] is zero, whose message tells two ints from the rest.  An int is
    taken at its value: the ints divided here ([100], the length of a list)
    are small enough to be floats as they are. *)
Definition truediv (x y : number) : outcome Q :=
  if Qeq_bool (value y) 0 then
    Raise (Exn match x, y with
               | Int _, Int _ => "division by zero"
               | _, _ => "float division by zero"
               end)
  else Return (double (value x / value y)).

(** The order of [value_counts]: by decreasing count. *)
Definition more_frequent (a b : string * nat) : Prop := snd b ≤ snd a.

Global Instance more_frequent_dec : RelDecision more_frequent :=
  λ a b, decide (snd b ≤ snd a).

(** How many times a value occurs in a column. *)
Definition occurrences (x : string) (column : list string) : nat :=
  length (filter (λ y, y = x) column).

(** The distinct values of a column, in the order in which they first appear. *)
Fixpoint distinct (column : list string) : list string :=
  match column with
  | [] => []
  | x :: column' => x :: filter (λ y, y ≠ x) (distinct column')
  end.

(** Puts an entry before the first entry that is not more frequent than it. *)
Fixpoint insert_by_count (a : string * nat) (l : list (string * nat))
  : list (string * nat) :=
  match l with
  | [] => [a]
  | b :: l' =>
      if decide (more_frequent a b) then a :: b :: l'
      else b :: insert_by_count a l'
  end.

(** [series.value_counts()]: each distinct value with the number of times
    it occurs, the most frequent first; values that occur equally often stay
    in the order in which they first appear. *)
Definition value_counts (column : list string) : list (string * nat) :=
  foldr insert_by_count [] ((λ x, (x, occurrences x column)) <$> distinct column).

Section Streamlit.

(** The loaded [YOLO] object, the numpy array of the uploaded image, and a
    picture shown on the page. *)
Context {Handle Image Picture : Type}.
(** [os.path.exists] *)
Variable path_exists : string → bool.
(** [YOLO(path)] *)
Variable YOLO : string → outcome Handle.
(** [model.predict(image_np, conf=conf_threshold)] *)
Variable model_predict : Handle → Image → Q → outcome (list Results).
(** [result.save("temp_result.jpg")] followed by [Image.open("temp_result.jpg")] *)
Variable save_and_open : Results → outcome Picture.
(** The builtin [float] applied to a cell of the table, a finite numeral. *)
Variable py_float : string → outcome Q.
(** The builtin [sum] applied to a non-empty list of floats; how it adds
    them up depends on the version of the interpreter. *)
Variable py_sum : list Q → Q.

Abbreviation Page := (Eff (element Picture)).

(** *** load_model *)

Definition load_model : Page (option Handle) :=
  let model_path := "best.pt" in
  if negb (path_exists model_path) then
    let! _ := emit (error ("❌ Modèle non trouvé : " +:+ model_path)) in
    let! _ := emit (info "Placez le fichier best.pt dans le même dossier que cette application") in
    ret None
  else
    match YOLO model_path with
    | Return model => ret (Some model)
    | Raise e =>
        let! _ := emit (error ("❌ Erreur lors du chargement du modèle : " +:+ exn_msg e)) in
        ret None
    end.

(** *** The table of detections *)

(** The body of the loop over [result.boxes]: one box becomes one line. *)
Definition row (result : Results) (box : Box) : outcome Row :=
  let cls := cls box in
  let conf := conf box in
  let class_name := default ("Classe " +:+ pretty cls) (names result !! cls) in
  bbox ← first_row (xyxy box);
  x_min ← getitem bbox 0;
  y_min ← getitem bbox 1;
  x_max ← getitem bbox 2;
  y_max ← getitem bbox 3;
  Return {| Classe := class_name;
            Confiance := format_percent 2 conf;
            X_min := format_f 0 x_min;
            Y_min := format_f 0 y_min;
            X_max := format_f 0 x_max;
            Y_max := format_f 0 y_max |}.

(** [for box in result.boxes: ... detections.append(...)] *)
Fixpoint rows (result : Results) (bs : list Box) (detections : list Row)
  : outcome (list Row) :=
  match bs with
  | [] => Return detections
  | box :: bs' =>
      d ← row result box;
      rows result bs' (detections ++ [d])
  end.

(** *** The mean confidence

    [sum([float(d['Confiance'].strip('%'))/100 for d in detections]) / len(detections)] *)

Definition shown_confidence (d : Row) : outcome Q :=
  x ← py_float (strip "%" (Confiance d));
  truediv (Float x) (Int 100).

Fixpoint shown_confidences (detections : list Row) : outcome (list Q) :=
  match detections with
  | [] => Return []
  | d :: detections' =>
      x ← shown_confidence d;
      xs ← shown_confidences detections';
      Return (x :: xs)
  end.

(** [sum(xs)]: the int 0 for the empty list, a float otherwise. *)
Definition sum (xs : list Q) : number :=
  match xs with
  | [] => Int 0
  | _ :: _ => Float (py_sum xs)
  end.

Definition avg_conf (detections : list Row) : outcome Q :=
  xs ← shown_confidences detections;
  truediv (sum xs) (Int (Z.of_nat (length detections))).

(** *** What is shown for one result *)

Definition show_result (result : Results) : Page () :=
  let! result_img := lift (save_and_open result) in
  let! _ := emit (image result_img "Image avec détections") in
  let num_detections := length (boxes result) in
  if (0 <? num_detections)%nat then
    let! _ := emit (success ("✅ " +:+ pretty num_detections +:+ " objet(s) détecté(s)")) in
    let! _ := emit (subheader "📋 Détails des détections") in
    let! detections := lift (rows result (boxes result) []) in
    let df := detections in
    let! _ := emit (dataframe df) in
    let! _ := emit (subheader "📈 Statistiques") in
    let class_counts := value_counts (Classe <$> df) in
    let! _ := emit (bar_chart class_counts) in
    let! _ := emit (metric "Total détections" (MInt num_detections)) in
    let! avg_conf := lift (avg_conf detections) in
    let! _ := emit (metric "Confiance moyenne" (MStr (format_percent 2 avg_conf))) in
    emit (metric "Classes différentes" (MInt (length class_counts)))
  else
    emit (warning "⚠️ Aucun objet détecté. Essayez de réduire le seuil de confiance.").

(** [for result in results: ...] *)
Fixpoint show_results (results : list Results) : Page () :=
  match results with
  | [] => ret ()
  | result :: results' =>
      let! _ := show_result result in
      show_results results'
  end.

(** *** The results column

    [uploaded_file] is the uploaded image, already decoded, when there is
    one; [button] tells whether the detect button was pressed in this run of
    the script. *)
Definition results_column (uploaded_file : option Image) (model : option Handle)
    (button : bool) (conf_threshold : Q) : Page () :=
  let! _ := emit (header "📊 Résultats") in
  match uploaded_file, model with
  | Some image_np, Some model =>
      if button then
        let! results := lift (model_predict model image_np conf_threshold) in
        show_results results
      else ret ()
  | None, _ => emit (info "👆 Téléchargez une image pour commencer l'analyse")
  | Some _, None => emit (error "❌ Le modèle n'a pas pu être chargé")
  end.

(** *** What the properties of the page speak of *)

(** What is assumed of [float()]: a plain decimal numeral within the range
    of the floats is read as the float nearest to it. *)
Definition reads_decimals : Prop :=
  ∀ s x,
    read_decimal s = Some x → (Qabs x <= max_double)%Q →
    py_float s = Return (double x).

Definition class_name (result : Results) (box : Box) : string :=
  default ("Classe " +:+ pretty (cls box)) (names result !! cls box).

(** The line of the table for a well formed box. *)
Definition row_of (result : Results) (box : Box) : Row :=
  {| Classe := class_name result box;
     Confiance := format_percent 2 (conf box);
     X_min := format_f 0 (coordinate 0 box);
     Y_min := format_f 0 (coordinate 1 box);
     X_max := format_f 0 (coordinate 2 box);
     Y_max := format_f 0 (coordinate 3 box) |}.

(** A confidence as read back from the table: the percentage with two
    decimals that the table shows, as a float, divided by 100. *)
Definition shown (c : Q) : Q :=
  double (double (rounded 2 (double (c * 100))) / 100).

(** The mean of floats: their [sum] divided by their number. *)
Definition mean (xs : list Q) : Q :=
  double (py_sum xs / inject_Z (Z.of_nat (length xs))).

End Streamlit.

(** *** The page on the sample environment *)

Definition sample_show_result (py_sum : list Q → Q) :=
  show_result Sample.save Sample.float_of_numeral py_sum.

Definition street : Results :=
  {| boxes := Sample.street; names := Sample.vehicle_names |}.

Definition crossing : Results :=
  {| boxes := Sample.crossing; names := Sample.vehicle_names |}.

(** A result without boxes, and one whose second box has lost a coordinate. *)
Definition empty_road : Results :=
  {| boxes := []; names := Sample.vehicle_names |}.

Definition truncated : Results :=
  {| boxes := Sample.truncated; names := Sample.vehicle_names |}.

Definition sample_results_column
    (detector : unit → list Byte.byte → pyfloat → outcome (list Results)) :=
  results_column (Sample.slider detector) Sample.save Sample.float_of_numeral
    Sample.sum_left_to_right.

(** The car of the street scene. *)
Definition car : Box :=
  {| cls := 1; conf := 9 # 10; xyxy := [[100 # 1; 120 # 1; 300 # 1; 260 # 1]] |}.


(** Three boxes whose scores are just above a half. *)
Definition near_half : Results :=
  {| boxes := [{| cls := 1; conf := 32771 # 65536; xyxy := [[10 # 1; 20 # 1; 30 # 1; 40 # 1]] |};
               {| cls := 1; conf := 32771 # 65536; xyxy := [[50 # 1; 20 # 1; 70 # 1; 40 # 1]] |};
               {| cls := 0; conf := 32777 # 65536; xyxy := [[90 # 1; 20 # 1; 130 # 1; 60 # 1]] |}];
     names := Sample.vehicle_names |}.

End AppStreamlit.

(** * Properties *)

(** ** Formatting and reading back *)

Section Decimal.

Implicit Types (s t : string) (a c : ascii) (n m acc : N) (d len : nat).

Lemma append_cons a s t : String a s +:+ t = String a (s +:+ t).
Proof. reflexivity. Qed.

Lemma append_assoc s t u : (s +:+ t) +:+ u = s +:+ (t +:+ u).
Proof. induction s as [|a s IH]; [done | by rewrite !append_cons, IH]. Qed.

Lemma append_nil_r s : s +:+ "" = s.
Proof. induction s as [|a s IH]; [done | by rewrite append_cons, IH]. Qed.

Lemma all_chars_app p s t :
  all_chars p (s +:+ t) = all_chars p s && all_chars p t.
Proof.
  induction s as [|a s IH]; [done|].
  rewrite append_cons. simpl. by rewrite IH, andb_assoc.
Qed.

Lemma all_chars_impl (p q : ascii → bool) s :
  (∀ a, p a = true → q a = true) → all_chars p s = true → all_chars q s = true.
Proof.
  intros Hpq. induction s as [|a s IH]; simpl; [done|].
  intros [Ha Hs]%andb_true_iff. by rewrite (Hpq _ Ha), IH.
Qed.

Lemma digit_value_char v : (v < 10)%N → digit_value (pretty_N_char v) = Some v.
Proof.
  intros Hv.
  assert (v = 0 ∨ v = 1 ∨ v = 2 ∨ v = 3 ∨ v = 4 ∨ v = 5 ∨ v = 6 ∨ v = 7
          ∨ v = 8 ∨ v = 9)%N as Hcases by lia.
  repeat (destruct Hcases as [->|Hcases]; [reflexivity|]). by subst.
Qed.

Lemma is_digit_char v : (v < 10)%N → is_digit (pretty_N_char v) = true.
Proof. intros Hv. unfold is_digit. by rewrite digit_value_char. Qed.

(** Reading a zero padded run of digits. *)
Lemma read_digits_fixed d : ∀ n rest acc len,
  read_digits (fixed_digits d n +:+ rest) acc len
  = read_digits rest (acc * 10 ^ N.of_nat d + n `mod` 10 ^ N.of_nat d)%N (len + d).
Proof.
  induction d as [|d IH]; intros n rest acc len.
  - change (fixed_digits 0 n +:+ rest) with rest.
    change (10 ^ N.of_nat 0)%N with 1%N. rewrite N.mod_1_r. f_equal; lia.
  - cbn [fixed_digits]. rewrite append_assoc, IH, append_cons.
    change ("" +:+ rest) with rest. cbn [read_digits].
    rewrite digit_value_char by (apply N.mod_lt; lia).
    rewrite Nat2N.inj_succ, N.pow_succ_r', (N.Div0.mod_mul_r n 10).
    f_equal; lia.
Qed.

Lemma all_digits_fixed d : ∀ n, all_chars is_digit (fixed_digits d n) = true.
Proof.
  induction d as [|d IH]; intros n; [done|].
  cbn [fixed_digits]. rewrite all_chars_app, IH. simpl.
  by rewrite is_digit_char by (apply N.mod_lt; lia).
Qed.

(** Reading the digits [pretty] prints for a natural number. *)
Lemma read_digits_pretty_go n :
  ∃ k, ((0 < n)%N → (0 < k)%nat)
    ∧ ∀ rest acc len,
        read_digits (pretty_N_go n rest) acc len
        = read_digits rest (acc * 10 ^ N.of_nat k + n)%N (len + k).
Proof.
  induction (N.lt_wf_0 n) as [n _ IH].
  destruct (decide (n = 0)%N) as [->|Hn].
  - exists 0%nat. split; [lia|]. intros rest acc len.
    rewrite pretty_N_go_0. f_equal; lia.
  - destruct (IH (n `div` 10)%N) as (k & _ & Hk); [apply N.div_lt; lia|].
    exists (S k). split; [lia|]. intros rest acc len.
    rewrite pretty_N_go_step by lia. rewrite Hk. cbn [read_digits].
    rewrite digit_value_char by (apply N.mod_lt; lia).
    rewrite Nat2N.inj_succ, N.pow_succ_r'.
    f_equal; [|lia]. pose proof (N.Div0.div_mod n 10). lia.
Qed.

Lemma read_digits_pretty n : ∃ k, read_digits (pretty n) 0 0 = Some (n, k).
Proof.
  unfold pretty, pretty_N. case_decide as Hn.
  - subst n. by exists 1%nat.
  - destruct (read_digits_pretty_go n) as (k & Hpos & Hk).
    exists k. rewrite Hk.
    destruct k; [lia|]. cbn [read_digits]. repeat f_equal; lia.
Qed.

Lemma all_chars_pretty_go p n : ∀ rest,
  (∀ v, (v < 10)%N → p (pretty_N_char v) = true) →
  all_chars p rest = true → all_chars p (pretty_N_go n rest) = true.
Proof.
  induction (N.lt_wf_0 n) as [n _ IH]. intros rest Hp Hrest.
  destruct (decide (n = 0)%N) as [->|Hn].
  - by rewrite pretty_N_go_0.
  - rewrite pretty_N_go_step by lia.
    apply IH; [apply N.div_lt; lia | done |].
    simpl. by rewrite Hp by (apply N.mod_lt; lia).
Qed.

Lemma all_digits_pretty n : all_chars is_digit (pretty n) = true.
Proof.
  unfold pretty, pretty_N. case_decide; [done|].
  apply all_chars_pretty_go; [apply is_digit_char | done].
Qed.

Lemma digit_is_no_point a : is_digit a = true → Ascii.eqb a "." = false.
Proof.
  intros Ha. destruct (Ascii.eqb_spec a ".") as [->|]; [discriminate | done].
Qed.

Lemma digit_is_no_sign a :
  is_digit a = true → Ascii.eqb a "-" = false ∧ Ascii.eqb a "+" = false.
Proof.
  intros Ha. split.
  - destruct (Ascii.eqb_spec a "-") as [->|]; [discriminate | done].
  - destruct (Ascii.eqb_spec a "+") as [->|]; [discriminate | done].
Qed.

Lemma split_point_digits i :
  all_chars is_digit i = true → split_point i = (i, None).
Proof.
  induction i as [|a i IH]; [done|]. simpl.
  intros [Ha Hi]%andb_true_iff.
  by rewrite (digit_is_no_point _ Ha), (IH Hi).
Qed.

Lemma split_point_app i f :
  all_chars is_digit i = true → split_point (i +:+ String "." f) = (i, Some f).
Proof.
  induction i as [|a i IH]; [done|].
  cbn [all_chars]. intros [Ha Hi]%andb_true_iff.
  rewrite append_cons. cbn [split_point].
  by rewrite (digit_is_no_point _ Ha), (IH Hi).
Qed.

Lemma read_unsigned_integer n : read_unsigned (pretty n) = Some (Z.of_N n # 1).
Proof.
  unfold read_unsigned. rewrite (split_point_digits _ (all_digits_pretty n)).
  destruct (read_digits_pretty n) as [k ->]. done.
Qed.

Lemma read_unsigned_fraction n d m :
  read_unsigned (pretty n +:+ "." +:+ fixed_digits (S d) m)
  = Some (Z.of_N (n * 10 ^ N.of_nat (S d) + m `mod` 10 ^ N.of_nat (S d))
          # Z.to_pos (10 ^ Z.of_nat (S d))).
Proof.
  unfold read_unsigned.
  change ("." +:+ fixed_digits (S d) m) with (String "." (fixed_digits (S d) m)).
  rewrite (split_point_app _ _ (all_digits_pretty n)).
  destruct (read_digits_pretty n) as [k ->].
  rewrite <- (append_nil_r (fixed_digits (S d) m)), read_digits_fixed.
  cbn [read_digits]. rewrite N.mul_0_l, N.add_0_l, Nat.add_0_l. done.
Qed.

Lemma read_decimal_unsigned n rest :
  read_decimal (pretty n +:+ rest) = read_unsigned (pretty n +:+ rest).
Proof.
  pose proof (all_digits_pretty n) as Hd.
  destruct (read_digits_pretty n) as [k Hk].
  destruct (pretty n) as [|a s]; [discriminate|].
  simpl in Hd. apply andb_true_iff in Hd as [Ha _].
  rewrite append_cons. unfold read_decimal.
  by destruct (digit_is_no_sign _ Ha) as [-> ->].
Qed.

Lemma read_decimal_negative n rest :
  read_decimal ("-" +:+ pretty n +:+ rest) = Qopp <$> read_unsigned (pretty n +:+ rest).
Proof. reflexivity. Qed.

(** Reading back what [format_f] printed gives the rounded value. *)
Lemma read_decimal_format_f d x : read_decimal (format_f d x) = Some (rounded d x).
Proof.
  unfold format_f, rounded.
  set (m := scaled d x).
  assert (read_unsigned
            (pretty (m `div` 10 ^ N.of_nat d)%N
             +:+ match d with
                 | O => ""
                 | S _ => "." +:+ fixed_digits d (m `mod` 10 ^ N.of_nat d)%N
                 end)
          = Some (Z.of_N m # Z.to_pos (10 ^ Z.of_nat d))) as Hu.
  { destruct d as [|d].
    - rewrite append_nil_r, read_unsigned_integer.
      change (10 ^ N.of_nat 0)%N with 1%N. by rewrite N.div_1_r.
    - rewrite read_unsigned_fraction, N.Div0.mod_mod.
      do 3 f_equal. pose proof (N.Div0.div_mod m (10 ^ N.of_nat (S d))). lia. }
  destruct (is_negative x).
  - rewrite read_decimal_negative, Hu. done.
  - change ("" +:+ ?s) with s. rewrite read_decimal_unsigned, Hu. done.
Qed.

Lemma lstrip_absent c s :
  all_chars (λ a, negb (Ascii.eqb a c)) s = true → lstrip c s = s.
Proof.
  destruct s as [|a s]; [done|]. simpl.
  intros [Ha _]%andb_true_iff. by apply negb_true_iff in Ha as ->.
Qed.

Lemma rstrip_absent c s :
  all_chars (λ a, negb (Ascii.eqb a c)) s = true →
  rstrip c (s +:+ String c "") = s.
Proof.
  induction s as [|a s IH].
  - intros _. simpl. by rewrite Ascii.eqb_refl.
  - cbn [all_chars]. intros [Ha Hs]%andb_true_iff.
    rewrite append_cons. cbn [rstrip].
    rewrite (IH Hs). apply negb_true_iff in Ha. rewrite Ha.
    by destruct s.
Qed.

Lemma format_f_no_percent d x : all_chars no_percent (format_f d x) = true.
Proof.
  assert (∀ s, all_chars is_digit s = true → all_chars no_percent s = true) as Hdig.
  { intros s. apply all_chars_impl. intros a Ha. unfold no_percent.
    destruct (Ascii.eqb_spec a "%") as [->|]; [discriminate | done]. }
  unfold format_f. rewrite !all_chars_app, (Hdig _ (all_digits_pretty _)).
  assert (all_chars no_percent (if is_negative x then "-" else "") = true) as ->
    by (by destruct (is_negative x)).
  destruct d as [|d]; [done|].
  by rewrite all_chars_app, (Hdig _ (all_digits_fixed _ _)).
Qed.

Lemma strip_format_percent d x :
  strip "%" (format_percent d x) = format_f d (double (x * 100)).
Proof.
  unfold strip, format_percent.
  pose proof (format_f_no_percent d (double (x * 100))) as Hno.
  destruct (format_f d (double (x * 100))) as [|a s] eqn:Hf.
  - reflexivity.
  - rewrite append_cons. cbn [lstrip].
    simpl in Hno. apply andb_true_iff in Hno as [Ha Hs].
    unfold no_percent in Ha. apply negb_true_iff in Ha. rewrite Ha.
    rewrite <- append_cons. apply rstrip_absent. cbn [all_chars].
    rewrite Ha. exact Hs.
Qed.

(** Rounding moves a number by at most half a unit. *)
Lemma round_half_even_close x :
  (Qabs (inject_Z (round_half_even x) - x) <= 1 # 2)%Q.
Proof.
  unfold round_half_even.
  pose proof (Qfloor_le x) as Hlo. pose proof (Qlt_floor x) as Hhi.
  rewrite inject_Z_plus in Hhi. change (inject_Z 1) with 1%Q in Hhi.
  apply Qabs_Qle_condition.
  destruct (Qcompare_spec (x - inject_Z (Qfloor x)) (1 # 2)) as [He|Hl|Hg].
  - destruct (Z.even (Qfloor x)); rewrite ?inject_Z_plus;
      change (inject_Z 1) with 1%Q; lra.
  - lra.
  - rewrite inject_Z_plus. change (inject_Z 1) with 1%Q. lra.
Qed.

Lemma round_half_even_nonneg x : (0 <= x)%Q → (0 <= round_half_even x)%Z.
Proof.
  intros Hx. unfold round_half_even.
  assert (0 <= Qfloor x)%Z as Hf.
  { change 0%Z with (Qfloor 0). by apply Qfloor_resp_le. }
  destruct (_ ?= _)%Q; [destruct (Z.even _)|..]; lia.
Qed.

Lemma rounded_2_close x : (Qabs (rounded 2 x - x) <= 1 # 200)%Q.
Proof.
  unfold rounded, scaled.
  change (Z.to_pos (10 ^ Z.of_nat 2)) with 100%positive.
  change (inject_Z (10 ^ Z.of_nat 2)) with 100%Q.
  pose proof (round_half_even_close (Qabs x * 100)) as Hclose.
  pose proof (round_half_even_nonneg (Qabs x * 100)) as Hnn.
  rewrite Z2N.id by (apply Hnn; pose proof (Qabs_nonneg x); lra).
  set (m := round_half_even (Qabs x * 100)) in *.
  apply Qabs_Qle_condition in Hclose. apply Qabs_Qle_condition.
  unfold is_negative.
  destruct (Qcompare_spec x 0) as [He|Hl|Hg].
  - rewrite (Qmake_Qdiv m 100). rewrite (Qabs_pos x) in Hclose by lra.
    unfold Qdiv. change (/ inject_Z (Z.pos 100)) with (1 # 100). lra.
  - rewrite (Qmake_Qdiv (- m) 100), inject_Z_opp.
    rewrite (Qabs_neg x) in Hclose by lra.
    unfold Qdiv. change (/ inject_Z (Z.pos 100)) with (1 # 100). lra.
  - rewrite (Qmake_Qdiv m 100). rewrite (Qabs_pos x) in Hclose by lra.
    unfold Qdiv. change (/ inject_Z (Z.pos 100)) with (1 # 100). lra.
Qed.

(** Rounding at most doubles a number that is not negative. *)
Lemma round_half_even_le_twice x :
  (0 <= x)%Q → (inject_Z (round_half_even x) <= 2 * x)%Q.
Proof.
  intros Hx. unfold round_half_even.
  pose proof (Qfloor_le x) as Hlo.
  assert (0 <= Qfloor x)%Z as Hf.
  { change 0%Z with (Qfloor 0). by apply Qfloor_resp_le. }
  rewrite Zle_Qle in Hf. change (inject_Z 0) with 0%Q in Hf.
  destruct (Qcompare_spec (x - inject_Z (Qfloor x)) (1 # 2)) as [He|Hl|Hg].
  - destruct (Z.even (Qfloor x)) eqn:Heven; [lra|].
    assert (1 <= Qfloor x)%Z as H1.
    { destruct (decide (Qfloor x = 0%Z)) as [H0|?]; [by rewrite H0 in Heven|].
      change 0%Q with (inject_Z 0) in Hf. rewrite <- Zle_Qle in Hf. lia. }
    rewrite Zle_Qle in H1. change (inject_Z 1) with 1%Q in H1.
    rewrite inject_Z_plus. change (inject_Z 1) with 1%Q. lra.
  - lra.
  - rewrite inject_Z_plus. change (inject_Z 1) with 1%Q. lra.
Qed.

Lemma pow2_pos e : (0 < pow2 e)%Q.
Proof.
  unfold pow2. destruct (0 <=? e)%Z eqn:He.
  - change 0%Q with (inject_Z 0). rewrite <- Zlt_Qlt.
    apply Z.pow_pos_nonneg; lia.
  - reflexivity.
Qed.

(** The float nearest to a number that is not negative is not negative, and
    at most twice the number. *)
Lemma double_bounds x : (0 <= x)%Q → (0 <= double x <= 2 * x)%Q.
Proof.
  intros Hx. unfold double.
  destruct (Qeq_bool x 0) eqn:H0.
  - apply Qeq_bool_eq in H0. lra.
  - assert (is_negative x = false) as ->.
    { unfold is_negative. destruct (Qcompare_spec x 0); try done. lra. }
    rewrite Qred_correct.
    pose proof (Qabs_pos x Hx) as Habs.
    set (y := Qabs x) in *. set (ulp := pow2 _).
    assert (0 < ulp)%Q as Hulp by apply pow2_pos.
    assert (0 <= y / ulp)%Q as Hq by (apply Qle_shift_div_l; [done | lra]).
    pose proof (round_half_even_nonneg _ Hq) as Hnn.
    pose proof (round_half_even_le_twice _ Hq) as Hle.
    set (m := round_half_even (y / ulp)) in *.
    rewrite Zle_Qle in Hnn. change (inject_Z 0) with 0%Q in Hnn.
    split.
    + apply Qmult_le_0_compat; lra.
    + assert (2 * x == 2 * (y / ulp) * ulp)%Q as -> by (rewrite <- Habs; field; lra).
      apply Qmult_le_compat_r; lra.
Qed.

Lemma max_double_large : (1000 <= max_double)%Q.
Proof. apply Qle_bool_iff. by vm_compute. Qed.

(** The cell of a probability is a numeral within the range of the floats. *)
Lemma percent_cell_in_range q :
  (0 <= q <= 1)%Q → (Qabs (rounded 2 (double (q * 100))) <= max_double)%Q.
Proof.
  intros [Hlo Hhi].
  destruct (double_bounds (q * 100)) as [Hd0 Hd1]; [lra|].
  pose proof (rounded_2_close (double (q * 100))) as Hclose.
  apply Qabs_Qle_condition in Hclose.
  pose proof max_double_large.
  apply Qabs_Qle_condition. lra.
Qed.

Lemma rounded_0_close x : (Qabs (rounded 0 x - x) <= 1 # 2)%Q.
Proof.
  unfold rounded, scaled.
  change (Z.to_pos (10 ^ Z.of_nat 0)) with 1%positive.
  change (inject_Z (10 ^ Z.of_nat 0)) with 1%Q.
  pose proof (round_half_even_close (Qabs x * 1)) as Hclose.
  pose proof (round_half_even_nonneg (Qabs x * 1)) as Hnn.
  rewrite Z2N.id by (apply Hnn; pose proof (Qabs_nonneg x); lra).
  set (m := round_half_even (Qabs x * 1)) in *.
  apply Qabs_Qle_condition in Hclose. apply Qabs_Qle_condition.
  unfold is_negative.
  destruct (Qcompare_spec x 0) as [He|Hl|Hg].
  - change (m # 1) with (inject_Z m). rewrite (Qabs_pos x) in Hclose by lra. lra.
  - change (- m # 1) with (inject_Z (- m)). rewrite inject_Z_opp.
    rewrite (Qabs_neg x) in Hclose by lra. lra.
  - change (m # 1) with (inject_Z m). rewrite (Qabs_pos x) in Hclose by lra. lra.
Qed.

End Decimal.

(** ** Properties of the API *)

Module AppProofs.

Import App.

Section Flask.

Context {Handle Image : Type}.
Variable path_exists : string → bool.
Variable YOLO : string → outcome Handle.
Variable model_predict : Handle → Image → pyfloat → outcome (list Results).
Variable image_open : list Byte.byte → outcome Image.
Variable py_float : string → outcome pyfloat.

Abbreviation load_model := (App.load_model path_exists YOLO).
Abbreviation float := (App.float py_float).
Abbreviation predict := (App.predict model_predict image_open py_float).
Abbreviation honours_threshold := (App.honours_threshold model_predict).
Abbreviation scores_in_unit_interval := (App.scores_in_unit_interval model_predict).

(** With no model loaded the view answers at once. *)
Lemma predict_not_loaded request log :
  predict None request log = (Return (error_response "Model not loaded" 500), log).
Proof. reflexivity. Qed.

(** With a model and no upload it answers at once, too. *)
Lemma predict_no_file model request log :
  files request !! "file" = None →
  predict (Some model) request log
  = (Return (error_response "No file provided" 400), log).
Proof.
  intros Hfile. unfold App.predict, try_except, predict_try. rewrite Hfile. reflexivity.
Qed.

(** With a model and an upload, the view is the pipeline
    threshold, decode, infer, format, each step of which may raise. *)
Lemma predict_pipeline model request image_bytes log :
  files request !! "file" = Some image_bytes →
  predict (Some model) request log =
    match float (form_get request "conf" (Finite (1 # 2))) with
    | Raise e => (Return (error_response (exn_msg e) 500), log)
    | Return c =>
        match image_open image_bytes with
        | Raise e => (Return (error_response (exn_msg e) 500), log)
        | Return image_np =>
            match model_predict model image_np c with
            | Raise e =>
                (Return (error_response (exn_msg e) 500), log ++ [call model image_np c])
            | Return results =>
                match extract results [] with
                | Raise e =>
                    (Return (error_response (exn_msg e) 500),
                     log ++ [call model image_np c])
                | Return detections =>
                    (Return (success_response detections),
                     log ++ [call model image_np c])
                end
            end
        end
    end.
Proof.
  intros Hfile.
  unfold App.predict, try_except, predict_try, files_getitem, call_predict, bind,
    lift, ret, emit.
  rewrite Hfile.
  destruct (float _) as [c|e]; [|reflexivity].
  destruct (image_open _) as [image_np|e]; [|reflexivity].
  destruct (model_predict _ _ _) as [results|e]; [|reflexivity].
  destruct (extract _ _) as [detections|e]; reflexivity.
Qed.

(** The view never lets an exception escape, and its answer is one of three kinds. *)
Lemma predict_answers model request log :
  ∃ response log', predict model request log = (Return response, log')
    ∧ ((∃ detections, response = success_response detections)
       ∨ (∃ msg, response = error_response msg 400)
       ∨ (∃ msg, response = error_response msg 500)).
Proof.
  destruct model as [model|].
  - destruct (files request !! "file") as [image_bytes|] eqn:Hfile.
    + rewrite (predict_pipeline _ _ _ _ Hfile).
      destruct (float _); [|eauto 8].
      destruct (image_open _); [|eauto 8].
      destruct (model_predict _ _ _); [|eauto 8].
      destruct (extract _ _); eauto 8.
    + rewrite (predict_no_file _ _ _ Hfile). eauto 8.
  - rewrite predict_not_loaded. eauto 8.
Qed.

(** An answer with status 200 is the success response of a pipeline that
    ran to its end. *)
Lemma predict_200_inv model request log body log' :
  predict model request log = (Return (body, 200%Z), log') →
  ∃ handle image_bytes c image_np results detections,
    model = Some handle
    ∧ files request !! "file" = Some image_bytes
    ∧ float (form_get request "conf" (Finite (1 # 2))) = Return c
    ∧ image_open image_bytes = Return image_np
    ∧ model_predict handle image_np c = Return results
    ∧ extract results [] = Return detections
    ∧ (body, 200%Z) = success_response detections
    ∧ log' = log ++ [call handle image_np c].
Proof.
  intros Hp. destruct model as [handle|].
  - destruct (files request !! "file") as [image_bytes|] eqn:Hfile.
    + rewrite (predict_pipeline _ _ _ _ Hfile) in Hp.
      destruct (float _) as [c|] eqn:Hc; [|discriminate].
      destruct (image_open _) as [image_np|] eqn:Hi; [|discriminate].
      destruct (model_predict _ _ _) as [results|] eqn:Hm; [|discriminate].
      destruct (extract _ _) as [detections|] eqn:He; [|discriminate].
      inversion Hp. subst. exists handle, image_bytes, c, image_np, results, detections.
      repeat split; done.
    + rewrite (predict_no_file _ _ _ Hfile) in Hp. discriminate.
  - rewrite predict_not_loaded in Hp. discriminate.
Qed.

(** On well formed boxes the loops run to their end. *)
Lemma detection_well_formed result box :
  well_formed box = true → detection result box = Return (record_of result box).
Proof.
  unfold well_formed, detection, record_of, coordinate.
  destruct (xyxy box) as [|[|x_min [|y_min [|x_max [|y_max bbox]]]] t];
    try discriminate.
  reflexivity.
Qed.

Lemma extract_boxes_well_formed result bs : ∀ detections,
  forallb well_formed bs = true →
  extract_boxes result bs detections
  = Return (detections ++ (record_of result <$> bs)).
Proof.
  induction bs as [|box bs IH]; intros detections Hwf; simpl.
  - by rewrite app_nil_r.
  - simpl in Hwf. apply andb_true_iff in Hwf as [Hbox Hbs].
    rewrite (detection_well_formed _ _ Hbox). simpl.
    rewrite (IH _ Hbs), <- app_assoc. reflexivity.
Qed.

Lemma extract_well_formed results : ∀ detections,
  all_well_formed results = true →
  extract results detections = Return (detections ++ records_of results).
Proof.
  unfold all_well_formed, records_of.
  induction results as [|result results IH]; intros detections Hwf; simpl.
  - by rewrite app_nil_r.
  - simpl in Hwf. apply andb_true_iff in Hwf as [Hresult Hresults].
    rewrite (extract_boxes_well_formed _ _ _ Hresult). simpl.
    rewrite (IH _ Hresults), <- app_assoc. reflexivity.
Qed.


(** What [extract] appends comes, record by record, from the boxes. *)
Lemma detection_inv result box d :
  detection result box = Return d →
  ∃ x_min y_min x_max y_max,
    d = JDict [("class_id", JInt (cls box));
               ("class_name",
                JStr (default ("Class " +:+ pretty (cls box)) (names result !! cls box)));
               ("confidence", JFloat (conf box));
               ("bbox", JDict [("x_min", JFloat x_min);
                               ("y_min", JFloat y_min);
                               ("x_max", JFloat x_max);
                               ("y_max", JFloat y_max)])].
Proof.
  unfold detection. intros Hd.
  destruct (first_row (xyxy box)) as [bbox|]; simpl in Hd; [|discriminate].
  destruct (getitem bbox 0) as [x_min|]; simpl in Hd; [|discriminate].
  destruct (getitem bbox 1) as [y_min|]; simpl in Hd; [|discriminate].
  destruct (getitem bbox 2) as [x_max|]; simpl in Hd; [|discriminate].
  destruct (getitem bbox 3) as [y_max|]; simpl in Hd; [|discriminate].
  inversion Hd. eauto 6.
Qed.

Lemma extract_boxes_inv result bs : ∀ detections detections',
  extract_boxes result bs detections = Return detections' →
  ∃ new, detections' = detections ++ new
    ∧ Forall2 (λ box d, detection result box = Return d) bs new.
Proof.
  induction bs as [|box bs IH]; intros detections detections' He; simpl in He.
  - inversion He. exists []. split; [by rewrite app_nil_r | constructor].
  - destruct (detection result box) as [d|] eqn:Hd; simpl in He; [|discriminate].
    apply IH in He as (new & -> & Hnew).
    exists (d :: new). split; [by rewrite <- app_assoc | by constructor].
Qed.

Lemma extract_inv results : ∀ detections detections',
  extract results detections = Return detections' →
  ∃ new, detections' = detections ++ new
    ∧ Forall (λ d, ∃ result box,
                result ∈ results ∧ box ∈ boxes result
                ∧ detection result box = Return d) new.
Proof.
  induction results as [|result results IH]; intros detections detections' He;
    simpl in He.
  - inversion He. exists []. split; [by rewrite app_nil_r | constructor].
  - destruct (extract_boxes result (boxes result) detections) as [ds|] eqn:Hb;
      simpl in He; [|discriminate].
    apply extract_boxes_inv in Hb as (new1 & -> & Hnew1).
    apply IH in He as (new2 & -> & Hnew2).
    exists (new1 ++ new2). split; [by rewrite <- app_assoc|].
    apply Forall_app. split.
    + apply Forall_forall. intros d Hd.
      apply list_elem_of_lookup_1 in Hd as [i Hi].
      destruct (Forall2_lookup_r _ _ _ _ _ Hnew1 Hi) as (box & Hbox & Hdet).
      exists result, box.
      split; [left|split; [by eapply list_elem_of_lookup_2|done]].
    + eapply Forall_impl; [exact Hnew2|].
      intros d (r & box & Hr & Hbox & Hdet). exists r, box.
      split; [by right|done].
Qed.

(** C1: in every successful response of POST /predict, [count] is the length
    of the [detections] list of the same response. *)
Theorem predict_count_is_length model request log body log' :
  predict model request log = (Return (body, 200%Z), log') →
  ∃ detections,
    jget "detections" body = Some (JList detections)
    ∧ jget "count" body = Some (JInt (Z.of_nat (length detections))).
Proof.
  intros Hp.
  apply predict_200_inv in Hp as (? & ? & ? & ? & ? & detections & _ & _ & _ & _ & _ & _ & Hb & _).
  inversion Hb. exists detections. split; reflexivity.
Qed.

(** C2: for a valid image and a threshold in [0,1] supplied in the [conf]
    field, every record of the returned batch has a confidence at least the
    requested threshold.  The view calls the detector with the threshold the
    field reads as, and copies the scores of the boxes it returns; the
    filtering is the detector's ([honours_threshold]). *)
Theorem predict_confidence_above_threshold
    model request image_bytes image_np s t log body log' :
  honours_threshold →
  files request !! "file" = Some image_bytes →
  image_open image_bytes = Return image_np →
  form request !! "conf" = Some s →
  py_float s = Return (Finite t) →
  (0 <= t <= 1)%Q →
  predict model request log = (Return (body, 200%Z), log') →
  ∃ handle detections,
    model = Some handle
    ∧ log' = log ++ [call handle image_np (Finite t)]
    ∧ jget "detections" body = Some (JList detections)
    ∧ ∀ d, d ∈ detections →
        ∃ c, jget "confidence" d = Some (JFloat c) ∧ (t <= c)%Q.
Proof.
  intros Hdet Hfile Himg Hconf Ht Hrange Hp.
  apply predict_200_inv in Hp
    as (handle & bytes' & c & img' & results & detections
        & -> & Hfile' & Hc & Himg' & Hm & He & Hb & ->).
  rewrite Hfile in Hfile'. inversion Hfile'; subst bytes'.
  unfold form_get in Hc. rewrite Hconf in Hc. simpl in Hc.
  rewrite Ht in Hc. inversion Hc; subst c.
  rewrite Himg in Himg'. inversion Himg'; subst img'.
  inversion Hb. exists handle, detections.
  split; [reflexivity|]. split; [reflexivity|]. split; [reflexivity|].
  intros d Hd.
  apply extract_inv in He as (new & Hnew & Hall). simpl in Hnew. subst new.
  rewrite Forall_forall in Hall.
  destruct (Hall d Hd) as (result & box & Hr & Hbox & Hdd).
  apply detection_inv in Hdd as (? & ? & ? & ? & ->).
  exists (conf box). split; [reflexivity|].
  eapply Hdet; eauto.
Qed.

(** C3, as amended: every successful response has the shape
    [{detections: [...], count: N, model: "Vehicle Detection Model"}], each
    record being [{class_id: integer, class_name: string, confidence: float
    in [0,1], bbox: {x_min, y_min, x_max, y_max}}]; the coordinates are under
    the key [bbox], and the confidence is the detector's score. *)
Theorem predict_response_shape model request log body log' :
  scores_in_unit_interval →
  predict model request log = (Return (body, 200%Z), log') →
  emitted_shape body = true.
Proof.
  intros Hunit Hp.
  apply predict_200_inv in Hp
    as (handle & bytes & c & img & results & detections
        & _ & _ & _ & _ & Hm & He & Hb & _).
  inversion Hb. unfold emitted_shape. simpl.
  rewrite andb_true_r. apply forallb_forall. intros d Hd.
  apply list_elem_of_In in Hd.
  apply extract_inv in He as (new & Hnew & Hall). simpl in Hnew. subst new.
  rewrite Forall_forall in Hall.
  destruct (Hall d Hd) as (result & box & Hr & Hbox & Hdd).
  apply detection_inv in Hdd as (? & ? & ? & ? & ->).
  destruct (Hunit _ _ _ _ Hm _ _ Hr Hbox) as [Hlo Hhi].
  apply Qle_bool_iff in Hlo, Hhi. simpl. rewrite Hlo, Hhi. reflexivity.
Qed.

(** C4, as amended: with a model loaded, a request without a [file] field is
    answered 400 with the body [{error: "No file provided"}], no exception
    escapes and the detector is not called. *)
Theorem predict_no_file_is_400 handle request log :
  files request !! "file" = None →
  predict (Some handle) request log
  = (Return (jsonify [("error", JStr "No file provided")], 400%Z), log).
Proof. apply predict_no_file. Qed.

(** C5: when the weights file is absent, the model handle is None, GET
    /health reports [model_loaded: false], and every POST /predict is
    answered 500 with the body [{error: "Model not loaded"}]. *)
Theorem absent_weights_fail_gracefully :
  path_exists MODEL_PATH = false →
  load_model = Return None
  ∧ ∀ model, load_model = Return model →
      health model
      = (jsonify [("status", JStr "ok");
                  ("model_loaded", JBool false);
                  ("model_path", JStr "best.pt")], 200%Z)
      ∧ ∀ request log,
          predict model request log
          = (Return (jsonify [("error", JStr "Model not loaded")], 500%Z), log).
Proof.
  intros Habsent. unfold App.load_model. rewrite Habsent.
  split; [reflexivity|].
  intros model Hl. inversion Hl. split; [reflexivity|].
  intros request log. apply predict_not_loaded.
Qed.

Lemma float_default request default :
  form request !! "conf" = None →
  float (form_get (Upload := list Byte.byte) request "conf" default) = Return default.
Proof. intros Hconf. unfold form_get. rewrite Hconf. reflexivity. Qed.

Lemma float_submitted request s default :
  form request !! "conf" = Some s →
  float (form_get (Upload := list Byte.byte) request "conf" default) = py_float s.
Proof. intros Hconf. unfold form_get. rewrite Hconf. reflexivity. Qed.

(** C6: for a request that omits the [conf] field, inference is invoked
    with the default threshold 0.5: the request that reaches inference calls
    the detector once, with 0.5, and no request without [conf] calls it with
    anything else. *)
Theorem predict_default_threshold model request log :
  form request !! "conf" = None →
  (∀ handle image_bytes image_np,
     model = Some handle →
     files request !! "file" = Some image_bytes →
     image_open image_bytes = Return image_np →
     snd (predict model request log) = log ++ [call handle image_np (Finite (1 # 2))])
  ∧ ∃ new, snd (predict model request log) = log ++ new
      ∧ Forall (λ c, call_conf c = Finite (1 # 2)) new.
Proof.
  intros Hconf. split.
  - intros handle image_bytes image_np -> Hfile Himg.
    rewrite (predict_pipeline _ _ _ _ Hfile), (float_default _ _ Hconf), Himg.
    destruct (model_predict _ _ _); [|reflexivity].
    destruct (extract _ _); reflexivity.
  - destruct model as [handle|].
    + destruct (files request !! "file") as [image_bytes|] eqn:Hfile.
      * rewrite (predict_pipeline _ _ _ _ Hfile), (float_default _ _ Hconf).
        destruct (image_open _) as [image_np|].
        -- exists [call handle image_np (Finite (1 # 2))].
           split; [|by repeat constructor].
           destruct (model_predict _ _ _); [|reflexivity].
           destruct (extract _ _); reflexivity.
        -- exists []. split; [by rewrite app_nil_r | constructor].
      * rewrite (predict_no_file _ _ _ Hfile).
        exists []. split; [by rewrite app_nil_r | constructor].
    + rewrite predict_not_loaded.
      exists []. split; [by rewrite app_nil_r | constructor].
Qed.

(** C7: a fault raised by any step of the pipeline (reading the threshold,
    decoding the image, the detector, formatting the boxes) is caught and
    answered 500 with the body [{error: str(e)}]; it does not escape. *)
Theorem predict_reports_faults handle request image_bytes log :
  files request !! "file" = Some image_bytes →
  (∀ e, float (form_get request "conf" (Finite (1 # 2))) = Raise e →
     predict (Some handle) request log
     = (Return (jsonify [("error", JStr (exn_msg e))], 500%Z), log))
  ∧ (∀ c e,
       float (form_get request "conf" (Finite (1 # 2))) = Return c →
       image_open image_bytes = Raise e →
       predict (Some handle) request log
       = (Return (jsonify [("error", JStr (exn_msg e))], 500%Z), log))
  ∧ (∀ c image_np e,
       float (form_get request "conf" (Finite (1 # 2))) = Return c →
       image_open image_bytes = Return image_np →
       model_predict handle image_np c = Raise e →
       predict (Some handle) request log
       = (Return (jsonify [("error", JStr (exn_msg e))], 500%Z),
          log ++ [call handle image_np c]))
  ∧ (∀ c image_np results e,
       float (form_get request "conf" (Finite (1 # 2))) = Return c →
       image_open image_bytes = Return image_np →
       model_predict handle image_np c = Return results →
       extract results [] = Raise e →
       predict (Some handle) request log
       = (Return (jsonify [("error", JStr (exn_msg e))], 500%Z),
          log ++ [call handle image_np c])).
Proof.
  intros Hfile. rewrite (predict_pipeline _ _ _ _ Hfile).
  repeat split.
  - by intros e ->.
  - by intros c e -> ->.
  - by intros c image_np e -> -> ->.
  - by intros c image_np results e -> -> -> ->.
Qed.

(** C10, as amended: the view does not check the range of the [conf]
    field.  Whatever float the field reads as (in [0,1] or not, an infinity,
    NaN), the detector is called with it, and the answer is then the
    detector's: a 500 with its message if it raises, and otherwise the
    answer for the boxes it returns.  A field that does not read as a float
    is answered 500, not 400, and the detector is not called. *)
Theorem predict_conf_not_validated handle request image_bytes s log :
  files request !! "file" = Some image_bytes →
  form request !! "conf" = Some s →
  (∀ v image_np,
     py_float s = Return v →
     image_open image_bytes = Return image_np →
     predict (Some handle) request log
     = (Return match model_predict handle image_np v with
               | Raise e => error_response (exn_msg e) 500
               | Return results =>
                   match extract results [] with
                   | Raise e => error_response (exn_msg e) 500
                   | Return detections => success_response detections
                   end
               end,
        log ++ [call handle image_np v]))
  ∧ (∀ e,
       py_float s = Raise e →
       predict (Some handle) request log
       = (Return (jsonify [("error", JStr (exn_msg e))], 500%Z), log)).
Proof.
  intros Hfile Hconf.
  rewrite (predict_pipeline _ _ _ _ Hfile), (float_submitted _ _ _ Hconf).
  split.
  - intros v image_np -> ->.
    destruct (model_predict _ _ _); [|reflexivity].
    destruct (extract _ _); reflexivity.
  - by intros e ->.
Qed.

(** *** Further properties of the API *)

(** A record that [detection] returns is the record of a well formed box. *)
Lemma detection_Return result box d :
  detection result box = Return d →
  well_formed box = true ∧ d = record_of result box.
Proof.
  unfold well_formed, detection, record_of, coordinate.
  destruct (xyxy box) as [|[|x_min [|y_min [|x_max [|y_max bbox]]]] t];
    try discriminate.
  intros Hd. inversion Hd. done.
Qed.

Lemma extract_boxes_Return result bs : ∀ detections detections',
  extract_boxes result bs detections = Return detections' →
  forallb well_formed bs = true
  ∧ detections' = detections ++ (record_of result <$> bs).
Proof.
  induction bs as [|box bs IH]; intros detections detections' He; simpl in He.
  - inversion He. by rewrite app_nil_r.
  - destruct (detection result box) as [d|] eqn:Hd; simpl in He; [|discriminate].
    apply detection_Return in Hd as [Hbox ->].
    apply IH in He as [Hbs ->]. simpl. rewrite Hbox, Hbs, <- app_assoc. done.
Qed.

Lemma extract_Return results : ∀ detections detections',
  extract results detections = Return detections' →
  all_well_formed results = true
  ∧ detections' = detections ++ records_of results.
Proof.
  unfold all_well_formed, records_of.
  induction results as [|result results IH]; intros detections detections' He;
    simpl in He.
  - inversion He. by rewrite app_nil_r.
  - destruct (extract_boxes result (boxes result) detections) as [ds|] eqn:Hb;
      simpl in He; [|discriminate].
    apply extract_boxes_Return in Hb as [Hresult ->].
    apply IH in He as [Hresults ->]. simpl.
    rewrite Hresult, Hresults, <- app_assoc. done.
Qed.

Lemma length_records_of results :
  length (records_of results) = length (results ≫= boxes).
Proof.
  unfold records_of. induction results as [|result results IH]; [done|].
  rewrite !bind_cons, !length_app, length_fmap, IH. done.
Qed.

(** X1: a request makes the view call the detector at most once, and not
    at all when no model is loaded, when there is no upload, when the
    threshold does not read as a float or when the upload does not decode. *)
Theorem predict_calls_detector_at_most_once model request log :
  ∃ new, snd (predict model request log) = log ++ new
    ∧ (length new ≤ 1)%nat
    ∧ (model = None
       ∨ files request !! "file" = None
       ∨ (∃ e, float (form_get request "conf" (Finite (1 # 2))) = Raise e)
       ∨ (∃ image_bytes e, files request !! "file" = Some image_bytes
                            ∧ image_open image_bytes = Raise e)
       → new = []).
Proof.
  destruct model as [handle|].
  - destruct (files request !! "file") as [image_bytes|] eqn:Hfile.
    + rewrite (predict_pipeline _ _ _ _ Hfile).
      destruct (float _) as [c|e] eqn:Hc.
      * destruct (image_open _) as [image_np|e] eqn:Himg.
        -- exists [call handle image_np c]. split; [|split; [simpl; lia|]].
           { destruct (model_predict _ _ _); [|done]. by destruct (extract _ _). }
           intros [?|[?|[[e ?]|(b & e & Hb & He)]]]; try done.
           inversion Hb; subst b. by rewrite Himg in He.
        -- exists []. rewrite app_nil_r. split; [done | split; [simpl; lia | done]].
      * exists []. rewrite app_nil_r. split; [done | split; [simpl; lia | done]].
    + rewrite (predict_no_file _ _ _ Hfile). exists []. rewrite app_nil_r. split; [done | split; [simpl; lia | done]].
  - rewrite predict_not_loaded. exists []. rewrite app_nil_r. split; [done | split; [simpl; lia | done]].
Qed.

(** X2: in a successful response the records are those of the boxes the
    detector returned for this request, one for each box and in the
    detector's order, and [count] is the number of these boxes. *)
Theorem predict_one_record_per_box model request log body log' :
  predict model request log = (Return (body, 200%Z), log') →
  ∃ handle image_np c results,
    log' = log ++ [call handle image_np c]
    ∧ model_predict handle image_np c = Return results
    ∧ jget "detections" body = Some (JList (records_of results))
    ∧ jget "count" body = Some (JInt (Z.of_nat (length (results ≫= boxes)))).
Proof.
  intros Hp.
  apply predict_200_inv in Hp
    as (handle & bytes & c & image_np & results & detections
        & _ & _ & _ & _ & Hm & He & Hb & ->).
  apply extract_Return in He as [_ ->]. inversion Hb.
  exists handle, image_np, c, results.
  rewrite <- length_records_of. done.
Qed.

(** X3: once the detector has answered, the response is a 200 exactly when
    every box has its four coordinates; one box without them turns the whole
    response into a 500, with no record of the other boxes. *)
Theorem predict_ok_iff_well_formed
    handle request image_bytes c image_np results log :
  files request !! "file" = Some image_bytes →
  float (form_get request "conf" (Finite (1 # 2))) = Return c →
  image_open image_bytes = Return image_np →
  model_predict handle image_np c = Return results →
  (all_well_formed results = true
   ∧ fst (predict (Some handle) request log)
     = Return (success_response (records_of results)))
  ∨ (all_well_formed results = false
     ∧ ∃ msg, fst (predict (Some handle) request log)
              = Return (error_response msg 500)).
Proof.
  intros Hfile Hc Himg Hm.
  rewrite (predict_pipeline _ _ _ _ Hfile), Hc, Himg, Hm.
  destruct (extract results []) as [detections|e] eqn:He.
  - apply extract_Return in He as [Hwf ->]. by left.
  - right. split; [|by eexists].
    destruct (all_well_formed results) eqn:Hwf; [|done].
    by rewrite (extract_well_formed _ _ Hwf) in He.
Qed.

Local Ltac answered status :=
  eexists _, status, _; split; [reflexivity|]; split; [auto|];
  case_decide; try lia; split; [by eexists | done].

(** X4: the view never raises.  Its answer has status 200, 400 or 500; a
    200 carries [detections] and no [error], the others carry [error] and no
    [detections]. *)
Theorem predict_never_raises model request log :
  ∃ body status log',
    predict model request log = (Return (body, status), log')
    ∧ (status = 200 ∨ status = 400 ∨ status = 500)%Z
    ∧ (if decide (status = 200%Z)
       then is_Some (jget "detections" body) ∧ jget "error" body = None
       else is_Some (jget "error" body) ∧ jget "detections" body = None).
Proof.
  destruct model as [handle|].
  - destruct (files request !! "file") as [image_bytes|] eqn:Hfile.
    + rewrite (predict_pipeline _ _ _ _ Hfile).
      destruct (float _); [|answered 500%Z].
      destruct (image_open _); [|answered 500%Z].
      destruct (model_predict _ _ _); [|answered 500%Z].
      destruct (extract _ _); [answered 200%Z | answered 500%Z].
    + rewrite (predict_no_file _ _ _ Hfile). answered 400%Z.
  - rewrite predict_not_loaded. answered 500%Z.
Qed.

(** X6: when [load_model] returns, GET /health reports under
    [model_loaded] whether the weights file exists. *)
Theorem health_reports_weights_file model :
  load_model = Return model →
  health model
  = (jsonify [("status", JStr "ok");
              ("model_loaded", JBool (path_exists "best.pt"));
              ("model_path", JStr "best.pt")], 200%Z).
Proof.
  unfold App.load_model, MODEL_PATH.
  destruct (path_exists "best.pt").
  - destruct (YOLO "best.pt"); simpl; intros Hl; inversion Hl. done.
  - intros Hl. inversion Hl. done.
Qed.

End Flask.

(** *** The API on the sample environment *)

(** The sample detector returns boxes of its scene that reach the threshold. *)
Lemma sample_detector_boxes scene model image_np t results result box :
  Sample.detector scene model image_np t = Return results →
  result ∈ results → box ∈ boxes result →
  In box scene ∧ Sample.reaches t (conf box) = true.
Proof.
  intros Hr Hresult Hbox. inversion Hr; subst results.
  apply list_elem_of_singleton in Hresult. subst result. simpl in Hbox.
  by apply list_elem_of_In, filter_In in Hbox.
Qed.

Lemma sample_detector_honours_threshold scene :
  honours_threshold (Sample.detector scene).
Proof.
  intros model image_np t results _ Hr result box Hresult Hbox.
  destruct (sample_detector_boxes _ _ _ _ _ _ _ Hr Hresult Hbox) as [_ Hle].
  by apply Qle_bool_iff.
Qed.

Lemma street_scores_in_unit_interval :
  scores_in_unit_interval (Sample.detector Sample.street).
Proof.
  intros model image_np t results Hr result box Hresult Hbox.
  destruct (sample_detector_boxes _ _ _ _ _ _ _ Hr Hresult Hbox) as [Hin _].
  simpl in Hin. destruct Hin as [<-|[<-|[<-|[]]]]; by vm_compute.
Qed.

(** The street scene at threshold 0.5: the car and the bus. *)
Lemma street_at_half log :
  sample_predict Sample.street (Some ()) (upload (Some "0.5")) log
  = (Return (street_body, 200%Z), log ++ [call () Sample.jpeg (Finite (1 # 2))]).
Proof. reflexivity. Qed.

(** In the answer for the street scene, [count] is 2 for two records. *)
Lemma predict_count_is_length_witness :
  ∃ detections,
    jget "detections" street_body = Some (JList detections)
    ∧ jget "count" street_body = Some (JInt (Z.of_nat (length detections))).
Proof.
  exact (predict_count_is_length (Sample.detector Sample.street) Sample.image_open
           Sample.float (Some ()) (upload (Some "0.5")) [] street_body _
           (street_at_half [])).
Defined.

(** Both records of the street scene at threshold 0.5 score at least 0.5. *)
Lemma predict_confidence_above_threshold_witness :
  ∃ handle detections,
    Some () = Some handle
    ∧ [call () Sample.jpeg (Finite (1 # 2))]
      = [] ++ [call handle Sample.jpeg (Finite (1 # 2))]
    ∧ jget "detections" street_body = Some (JList detections)
    ∧ ∀ d, d ∈ detections →
        ∃ c, jget "confidence" d = Some (JFloat c) ∧ (1 # 2 <= c)%Q.
Proof.
  refine (predict_confidence_above_threshold (Sample.detector Sample.street)
            Sample.image_open Sample.float (Some ()) (upload (Some "0.5"))
            Sample.jpeg Sample.jpeg "0.5" (1 # 2) [] street_body _
            (sample_detector_honours_threshold _) _ _ _ _ _ (street_at_half []));
    [reflexivity | reflexivity | reflexivity | reflexivity | by vm_compute].
Defined.

(** C3, as stated, fails: the records of a successful response have no
    [bounding_box] key, the coordinates being under [bbox]. *)
Lemma predict_has_no_bounding_box_key :
  scores_in_unit_interval (Sample.detector Sample.street)
  ∧ sample_predict Sample.street (Some ()) (upload (Some "0.5")) []
    = (Return (street_body, 200%Z), [call () Sample.jpeg (Finite (1 # 2))])
  ∧ documented_shape street_body = false
  ∧ jget "bounding_box" (record 1 "car" (9 # 10) "bbox" 100 120 300 260) = None.
Proof.
  split; [apply street_scores_in_unit_interval|].
  split; [reflexivity|]. split; reflexivity.
Qed.

(** The answer for the street scene has the shape the code emits. *)
Lemma predict_response_shape_witness : emitted_shape street_body = true.
Proof.
  exact (predict_response_shape (Sample.detector Sample.street) Sample.image_open
           Sample.float (Some ()) (upload (Some "0.5")) [] street_body _
           street_scores_in_unit_interval (street_at_half [])).
Defined.

(** C4, as stated, fails: with no model loaded, a request without a [file]
    field is answered 500, not 400. *)
Lemma predict_no_file_not_loaded_is_500 :
  files no_upload !! "file" = None
  ∧ sample_predict Sample.street None no_upload []
    = (Return (jsonify [("error", JStr "Model not loaded")], 500%Z), []).
Proof. split; reflexivity. Qed.

(** With a model loaded, the request without upload is answered 400. *)
Lemma predict_no_file_is_400_witness :
  sample_predict Sample.street (Some ()) no_upload []
  = (Return (jsonify [("error", JStr "No file provided")], 400%Z), []).
Proof.
  exact (predict_no_file_is_400 (Sample.detector Sample.street) Sample.image_open
           Sample.float () no_upload [] eq_refl).
Defined.

(** A file system without [best.pt]. *)
Lemma absent_weights_fail_gracefully_witness :
  load_model (λ _, false) (λ _, Return ()) = Return None
  ∧ ∀ model, load_model (λ _, false) (λ _, Return ()) = Return model →
      health model
      = (jsonify [("status", JStr "ok");
                  ("model_loaded", JBool false);
                  ("model_path", JStr "best.pt")], 200%Z)
      ∧ ∀ request log,
          sample_predict Sample.street model request log
          = (Return (jsonify [("error", JStr "Model not loaded")], 500%Z), log).
Proof.
  exact (absent_weights_fail_gracefully (λ _, false) (λ _, Return ())
           (Sample.detector Sample.street) Sample.image_open Sample.float eq_refl).
Defined.

(** An upload without [conf]: one call of the detector, at 0.5. *)
Lemma predict_default_threshold_witness :
  snd (sample_predict Sample.street (Some ()) (upload None) [])
  = [call () Sample.jpeg (Finite (1 # 2))].
Proof.
  exact (proj1 (predict_default_threshold (Sample.detector Sample.street)
                  Sample.image_open Sample.float (Some ()) (upload None) [] eq_refl)
           () Sample.jpeg Sample.jpeg eq_refl eq_refl eq_refl).
Defined.

(** The fault of the broken detector comes back as a 500. *)
Lemma predict_reports_faults_witness :
  predict Sample.broken_detector Sample.image_open Sample.float
    (Some ()) (upload (Some "0.5")) []
  = (Return (jsonify [("error", JStr "CUDA out of memory")], 500%Z),
     [call () Sample.jpeg (Finite (1 # 2))]).
Proof.
  exact (proj1 (proj2 (proj2
           (predict_reports_faults Sample.broken_detector Sample.image_open
              Sample.float () (upload (Some "0.5")) Sample.jpeg [] eq_refl)))
           (Finite (1 # 2))%Q Sample.jpeg (Exn "CUDA out of memory")
           eq_refl eq_refl eq_refl).
Defined.

(** C10, as stated, fails: [-1.5] reads as a float, the view hands it to
    the detector, and a detector that checks its arguments (as the one of
    the library does) raises: the answer is an error response, although the
    value is a float. *)
Lemma predict_out_of_range_conf_is_500 :
  Sample.float "-1.5" = Return (Finite (- (3 # 2)))
  ∧ strict_predict Sample.street (Some ()) (upload (Some "-1.5")) []
    = (Return (jsonify [("error", JStr "'conf' is an invalid value. Valid 'conf' values are between 0.0 and 1.0.")],
               500%Z),
       [call () Sample.jpeg (Finite (- (3 # 2)))]).
Proof. split; reflexivity. Qed.

(** The thresholds -1.5 and NaN reach the detector as they are: the lenient
    detector answers 200 with the three boxes of the street for the one and
    with no box for the other, the strict detector answers 500 for
    both. *)
Lemma predict_conf_not_validated_witness :
  sample_predict Sample.street (Some ()) (upload (Some "-1.5")) []
  = (Return (success_response
               (records_of [{| boxes := Sample.street; names := Sample.vehicle_names |}])),
     [call () Sample.jpeg (Finite (- (3 # 2)))])
  ∧ sample_predict Sample.street (Some ()) (upload (Some "nan")) []
    = (Return (success_response []), [call () Sample.jpeg NaN])
  ∧ strict_predict Sample.street (Some ()) (upload (Some "nan")) []
    = (Return (error_response "'conf' is an invalid value. Valid 'conf' values are between 0.0 and 1.0." 500),
       [call () Sample.jpeg NaN]).
Proof.
  split; [|split].
  - exact (proj1 (predict_conf_not_validated (Sample.detector Sample.street)
                    Sample.image_open Sample.float () (upload (Some "-1.5"))
                    Sample.jpeg "-1.5" [] eq_refl eq_refl)
             (Finite (- (3 # 2))) Sample.jpeg eq_refl eq_refl).
  - exact (proj1 (predict_conf_not_validated (Sample.detector Sample.street)
                    Sample.image_open Sample.float () (upload (Some "nan"))
                    Sample.jpeg "nan" [] eq_refl eq_refl)
             NaN Sample.jpeg eq_refl eq_refl).
  - exact (proj1 (predict_conf_not_validated (Sample.strict_detector Sample.street)
                    Sample.image_open Sample.float () (upload (Some "nan"))
                    Sample.jpeg "nan" [] eq_refl eq_refl)
             NaN Sample.jpeg eq_refl eq_refl).
Defined.

(** The street scene at threshold 0.5: one call, two boxes, two records. *)
Lemma predict_one_record_per_box_witness :
  ∃ handle image_np c results,
    [call () Sample.jpeg (Finite (1 # 2))] = [] ++ [call handle image_np c]
    ∧ Sample.detector Sample.street handle image_np c = Return results
    ∧ jget "detections" street_body = Some (JList (records_of results))
    ∧ jget "count" street_body
      = Some (JInt (Z.of_nat (length (results ≫= boxes)))).
Proof.
  exact (predict_one_record_per_box (Sample.detector Sample.street)
           Sample.image_open Sample.float (Some ()) (upload (Some "0.5")) []
           street_body _ (street_at_half [])).
Defined.

(** The bus without its fourth coordinate costs the car its record. *)
Lemma predict_ok_iff_well_formed_witness :
  (all_well_formed
     [{| boxes := Sample.truncated; names := Sample.vehicle_names |}] = true
   ∧ fst (sample_predict Sample.truncated (Some ()) (upload (Some "0.5")) [])
     = Return (success_response
                 (records_of [{| boxes := Sample.truncated;
                                 names := Sample.vehicle_names |}])))
  ∨ (all_well_formed
       [{| boxes := Sample.truncated; names := Sample.vehicle_names |}] = false
     ∧ ∃ msg,
         fst (sample_predict Sample.truncated (Some ()) (upload (Some "0.5")) [])
         = Return (error_response msg 500)).
Proof.
  exact (predict_ok_iff_well_formed (Sample.detector Sample.truncated)
           Sample.image_open Sample.float () (upload (Some "0.5")) Sample.jpeg
           (Finite (1 # 2)) Sample.jpeg
           [{| boxes := Sample.truncated; names := Sample.vehicle_names |}] []
           eq_refl eq_refl eq_refl eq_refl).
Defined.

(** A file system with [best.pt], loaded without fault. *)
Lemma health_reports_weights_file_witness :
  health (Some ())
  = (jsonify [("status", JStr "ok");
              ("model_loaded", JBool true);
              ("model_path", JStr "best.pt")], 200%Z).
Proof.
  exact (health_reports_weights_file (λ _, true) (λ _, Return ()) (Some ())
           eq_refl).
Defined.

End AppProofs.

(** ** Properties of the page *)

Module AppStreamlitProofs.

Import AppStreamlit.

(** The distinct values of a column. *)
Lemma elem_of_distinct x column : x ∈ distinct column ↔ x ∈ column.
Proof.
  induction column as [|a column IH]; [done|]. cbn [distinct].
  rewrite !elem_of_cons, list_elem_of_filter, IH.
  destruct (decide (x = a)) as [->|Hne]; [by split; [left|left]|].
  split; [intros [?|[_ ?]]; [done | by right] | intros [?|?]; [done | by right]].
Qed.

Lemma NoDup_distinct column : NoDup (distinct column).
Proof.
  induction column as [|a column IH]; [constructor|]. cbn [distinct].
  constructor; [|by apply NoDup_filter].
  rewrite list_elem_of_filter. by intros [? _].
Qed.

(** Sorting by count. *)
Lemma insert_by_count_Permutation a l : insert_by_count a l ≡ₚ a :: l.
Proof.
  induction l as [|b l IH]; [done|]. cbn [insert_by_count].
  case_decide; [done|]. rewrite IH. apply Permutation_swap.
Qed.

Lemma insert_by_count_sorted a l :
  StronglySorted more_frequent l →
  StronglySorted more_frequent (insert_by_count a l).
Proof.
  induction 1 as [|b l Hl IH Hb]; cbn [insert_by_count].
  - repeat constructor.
  - case_decide as Hab.
    + constructor; [by constructor|]. constructor; [done|].
      eapply Forall_impl; [exact Hb|].
      intros c Hc. unfold more_frequent in *. lia.
    + constructor; [done|]. rewrite insert_by_count_Permutation.
      constructor; [|done]. unfold more_frequent in *. lia.
Qed.

Lemma value_counts_Permutation column :
  value_counts column ≡ₚ (λ x, (x, occurrences x column)) <$> distinct column.
Proof.
  unfold value_counts. induction (_ <$> _) as [|a l IH]; [done|].
  simpl. by rewrite insert_by_count_Permutation, IH.
Qed.

Lemma value_counts_sorted column :
  StronglySorted more_frequent (value_counts column).
Proof.
  unfold value_counts.
  induction (_ <$> _); simpl; [constructor | by apply insert_by_count_sorted].
Qed.

Lemma length_value_counts column :
  length (value_counts column) = size (list_to_set (C := gset string) column).
Proof.
  rewrite (Permutation_length (value_counts_Permutation column)), length_fmap.
  rewrite <- (size_list_to_set (C := gset string) (distinct column))
    by apply NoDup_distinct.
  f_equal. apply set_eq. intros x.
  by rewrite !elem_of_list_to_set, elem_of_distinct.
Qed.

Section Streamlit.

Context {Handle Image Picture : Type}.
Variable save_and_open : Results → outcome Picture.
Variable py_float : string → outcome Q.
Variable py_sum : list Q → Q.

Abbreviation shown_confidence := (AppStreamlit.shown_confidence py_float).
Abbreviation shown_confidences := (AppStreamlit.shown_confidences py_float).
Abbreviation avg_conf := (AppStreamlit.avg_conf py_float py_sum).
Abbreviation show_result := (AppStreamlit.show_result save_and_open py_float py_sum).
Abbreviation reads_decimals := (AppStreamlit.reads_decimals py_float).
Abbreviation mean := (AppStreamlit.mean py_sum).

Lemma row_well_formed result box :
  well_formed box = true → row result box = Return (row_of result box).
Proof.
  unfold well_formed, row, row_of, class_name, coordinate.
  destruct (xyxy box) as [|[|x_min [|y_min [|x_max [|y_max bbox]]]] t];
    try discriminate.
  reflexivity.
Qed.

Lemma rows_well_formed result bs : ∀ detections,
  forallb well_formed bs = true →
  rows result bs detections = Return (detections ++ (row_of result <$> bs)).
Proof.
  induction bs as [|box bs IH]; intros detections Hwf; simpl.
  - by rewrite app_nil_r.
  - simpl in Hwf. apply andb_true_iff in Hwf as [Hbox Hbs].
    rewrite (row_well_formed _ _ Hbox). simpl.
    rewrite (IH _ Hbs), <- app_assoc. reflexivity.
Qed.

(** Reading a cell of the table back gives the float of what the cell shows. *)
Lemma shown_confidence_row result box :
  reads_decimals → (0 <= conf box <= 1)%Q →
  shown_confidence (row_of result box) = Return (shown (conf box)).
Proof.
  intros Hfloat Hrange. unfold AppStreamlit.shown_confidence, row_of. cbn [Confiance].
  rewrite strip_format_percent.
  rewrite (Hfloat _ _ (read_decimal_format_f 2 _) (percent_cell_in_range _ Hrange)).
  reflexivity.
Qed.

Lemma shown_confidences_rows result bs :
  reads_decimals → Forall (λ box, 0 <= conf box <= 1)%Q bs →
  shown_confidences (row_of result <$> bs) = Return (shown ∘ conf <$> bs).
Proof.
  intros Hfloat. induction 1 as [|box bs Hbox _ IH]; [done|].
  cbn [fmap list_fmap AppStreamlit.shown_confidences].
  rewrite (shown_confidence_row _ _ Hfloat Hbox). simpl.
  change (list_fmap _ _ (row_of result) bs) with (row_of result <$> bs).
  rewrite IH. reflexivity.
Qed.

Lemma avg_conf_rows result bs :
  reads_decimals → bs ≠ [] → Forall (λ box, 0 <= conf box <= 1)%Q bs →
  avg_conf (row_of result <$> bs) = Return (mean (shown ∘ conf <$> bs)).
Proof.
  intros Hfloat Hne Hrange. unfold AppStreamlit.avg_conf, AppStreamlit.mean.
  rewrite (shown_confidences_rows _ _ Hfloat Hrange). simpl.
  rewrite !length_fmap. unfold truediv.
  destruct bs as [|box bs]; [done|].
  destruct (Qeq_bool _ _) eqn:Hzero; [|reflexivity].
  apply Qeq_bool_eq in Hzero. unfold Qeq in Hzero. simpl in Hzero. lia.
Qed.

(** C8, as amended: for a non-empty batch of boxes with scores in [0,1],
    the page ends with three metrics: the number of detections; the mean,
    as a percentage with two decimals, not of the scores but of what the
    table shows of them: each score is printed as a percentage with two
    decimals, read back from this cell and divided by 100, and the mean is
    the [sum] of these floats divided by their number; and the number of
    distinct class names. *)
Theorem summary_metrics result picture log :
  reads_decimals →
  boxes result ≠ [] →
  forallb well_formed (boxes result) = true →
  Forall (λ box, 0 <= conf box <= 1)%Q (boxes result) →
  save_and_open result = Return picture →
  show_result result log
  = (Return (),
     log ++ [image picture "Image avec détections";
             success ("✅ " +:+ pretty (length (boxes result))
                      +:+ " objet(s) détecté(s)");
             subheader "📋 Détails des détections";
             dataframe (row_of result <$> boxes result);
             subheader "📈 Statistiques";
             bar_chart (value_counts (class_name result <$> boxes result));
             metric "Total détections" (MInt (length (boxes result)));
             metric "Confiance moyenne"
               (MStr (format_percent 2 (mean (shown ∘ conf <$> boxes result))));
             metric "Classes différentes"
               (MInt (size (list_to_set (C := gset string)
                              (class_name result <$> boxes result))))]).
Proof.
  intros Hfloat Hne Hwf Hrange Hsave.
  unfold AppStreamlit.show_result, bind, lift, emit. rewrite Hsave.
  destruct (boxes result) as [|box bs] eqn:Hboxes; [done|].
  change (0 <? length (box :: bs))%nat with true. cbv iota.
  rewrite (rows_well_formed _ _ _ Hwf). cbn [app].
  rewrite (avg_conf_rows _ _ Hfloat) by done.
  rewrite length_value_counts, <- !list_fmap_compose, <- !app_assoc.
  reflexivity.
Qed.

(** *** Further properties of the page *)

Variable path_exists : string → bool.
Variable YOLO : string → outcome Handle.
Variable model_predict : Handle → Image → Q → outcome (list Results).

Abbreviation load_model :=
  (AppStreamlit.load_model (Picture := Picture) path_exists YOLO).
Abbreviation show_results :=
  (AppStreamlit.show_results save_and_open py_float py_sum).
Abbreviation results_column :=
  (AppStreamlit.results_column model_predict save_and_open py_float py_sum).

(** X7: [load_model] of the page never raises.  It returns a model exactly
    when the weights file exists and [YOLO] loads it, and then puts nothing
    on the page; whenever it returns None it has put an error message on the
    page. *)
Theorem load_model_never_raises log :
  ∃ model new,
    load_model log = (Return model, log ++ new)
    ∧ (∀ handle, model = Some handle
         ↔ path_exists "best.pt" = true ∧ YOLO "best.pt" = Return handle)
    ∧ match model with
      | Some _ => new = []
      | None => ∃ msg rest, new = error msg :: rest
      end.
Proof.
  unfold AppStreamlit.load_model, bind, emit, ret.
  destruct (path_exists "best.pt"); simpl.
  - destruct (YOLO "best.pt") as [handle|e].
    + exists (Some handle), []. rewrite app_nil_r.
      split; [done|]. split; [|done].
      intros h. split; [by intros [= ->] | by intros [_ [= ->]]].
    + eexists None, [_]. split; [done|]. split; [|by eexists _, _].
      intros h. split; [done | by intros [_ ?]].
  - eexists None, [_; _]. rewrite <- app_assoc. split; [done|].
    split; [|by eexists _, _]. intros h. split; [done | by intros [? _]].
Qed.

(** A table that [rows] returns has the line of each box, all of them well
    formed. *)
Lemma row_Return result box r :
  row result box = Return r → well_formed box = true ∧ r = row_of result box.
Proof.
  unfold well_formed, row, row_of, class_name, coordinate.
  destruct (xyxy box) as [|[|x_min [|y_min [|x_max [|y_max bbox]]]] t];
    try discriminate.
  intros Hr. inversion Hr. done.
Qed.

Lemma rows_Return result bs : ∀ detections detections',
  rows result bs detections = Return detections' →
  forallb well_formed bs = true
  ∧ detections' = detections ++ (row_of result <$> bs).
Proof.
  induction bs as [|box bs IH]; intros detections detections' Hr; simpl in Hr.
  - inversion Hr. by rewrite app_nil_r.
  - destruct (row result box) as [r|] eqn:Hrow; simpl in Hr; [|discriminate].
    apply row_Return in Hrow as [Hbox ->].
    apply IH in Hr as (Hbs & ->). simpl. by rewrite Hbox, Hbs, <- app_assoc.
Qed.

(** X8: the table has exactly one line per box, in the order of the boxes:
    when the loop over the boxes ends, every box had its four coordinates
    and the lines appended are the lines of the boxes. *)
Theorem rows_one_line_per_box result bs detections detections' :
  rows result bs detections = Return detections' →
  forallb well_formed bs = true
  ∧ detections' = detections ++ (row_of result <$> bs)
  ∧ length detections' = (length detections + length bs)%nat.
Proof.
  intros Hr. apply rows_Return in Hr as [Hwf ->].
  split; [done|]. split; [done|]. by rewrite length_app, length_fmap.
Qed.

Lemma rows_malformed result bs : ∀ detections,
  forallb well_formed bs = false → ∃ e, rows result bs detections = Raise e.
Proof.
  intros detections Hwf.
  destruct (rows result bs detections) as [ds|e] eqn:Hr; [|by eexists].
  apply rows_Return in Hr as [Hwf' _]. congruence.
Qed.

(** X9: for a result without boxes the page shows the annotated image and
    the warning, and nothing else: no table, no chart, no metric.  The mean
    is not computed, which on an empty table would divide the int 0 that
    [sum] returns by the int 0 that [len] returns. *)
Theorem show_result_empty_batch result picture log :
  boxes result = [] →
  save_and_open result = Return picture →
  show_result result log
  = (Return (),
     log ++ [image picture "Image avec détections";
             warning "⚠️ Aucun objet détecté. Essayez de réduire le seuil de confiance."])
  ∧ avg_conf [] = Raise (Exn "division by zero").
Proof.
  intros Hboxes Hsave. split; [|reflexivity].
  unfold AppStreamlit.show_result, bind, lift, emit.
  rewrite Hsave, Hboxes. simpl. by rewrite <- app_assoc.
Qed.

(** X10: a box without its four coordinates stops the page after the
    success message and the first heading: the fault escapes, and neither
    table nor chart nor metric is shown. *)
Theorem show_result_malformed_box result picture log :
  forallb well_formed (boxes result) = false →
  save_and_open result = Return picture →
  ∃ e,
    show_result result log
    = (Raise e,
       log ++ [image picture "Image avec détections";
               success ("✅ " +:+ pretty (length (boxes result))
                        +:+ " objet(s) détecté(s)");
               subheader "📋 Détails des détections"]).
Proof.
  intros Hwf Hsave.
  destruct (rows_malformed result (boxes result) [] Hwf) as [e He].
  exists e. unfold AppStreamlit.show_result, bind, lift, emit.
  rewrite Hsave. destruct (boxes result) as [|box bs] eqn:Hboxes; [done|].
  change (0 <? length (box :: bs))%nat with true. cbv iota.
  rewrite He, <- !app_assoc. reflexivity.
Qed.

(** X11: the pages of several results follow one another: showing
    [results1 ++ results2] is showing [results1], then [results2]; a fault
    in the first part leaves the second part unshown. *)
Theorem show_results_app results1 results2 log :
  show_results (results1 ++ results2) log
  = match show_results results1 log with
    | (Return _, log') => show_results results2 log'
    | (Raise e, log') => (Raise e, log')
    end.
Proof.
  revert log. induction results1 as [|result results1 IH]; intros log; [done|].
  cbn [app AppStreamlit.show_results]. unfold bind.
  destruct (show_result result log) as [[[]|e] log']; [apply IH | done].
Qed.

(** Counting occurrences value by value counts every entry of a column once. *)
Lemma occurrences_cons x a column :
  occurrences x (a :: column)
  = ((if decide (a = x) then 1 else 0) + occurrences x column)%nat.
Proof.
  unfold occurrences. rewrite filter_cons. by destruct (decide (a = x)).
Qed.

Lemma sum_indicator a (keys : list string) :
  NoDup keys → a ∈ keys →
  sum_list_with (λ x, if decide (a = x) then 1 else 0)%nat keys = 1%nat.
Proof.
  induction 1 as [|k keys Hk Hnd IH]; intros Ha; [by apply elem_of_nil in Ha|].
  simpl. destruct (decide (a = k)) as [->|Hne].
  - assert (sum_list_with (λ x, if decide (k = x) then 1 else 0)%nat keys = 0%nat)
      as ->; [|done].
    clear IH Hnd Ha. induction keys as [|k' keys IH]; [done|]. simpl.
    destruct (decide (k = k')) as [->|?]; [by destruct Hk; left|].
    rewrite IH; [done|]. intros ?. apply Hk. by right.
  - apply elem_of_cons in Ha as [?|Ha]; [done|]. by rewrite IH.
Qed.

Lemma sum_occurrences (keys column : list string) :
  NoDup keys → (∀ a, a ∈ column → a ∈ keys) →
  sum_list_with (λ x, occurrences x column) keys = length column.
Proof.
  intros Hnd. induction column as [|a column IH]; intros Hsub.
  - clear. induction keys as [|k keys IH]; [done|]. simpl. by rewrite IH.
  - assert (sum_list_with (λ x, occurrences x (a :: column)) keys
            = (sum_list_with (λ x, if decide (a = x) then 1 else 0)%nat keys
               + sum_list_with (λ x, occurrences x column) keys)%nat) as ->.
    { clear. induction keys as [|k keys IH]; [done|]. simpl.
      rewrite IH, occurrences_cons. lia. }
    rewrite sum_indicator; [|done | apply Hsub; by left].
    rewrite IH; [done|]. intros b Hb. apply Hsub. by right.
Qed.

Lemma sum_list_with_fmap {A B} (f : B → nat) (g : A → B) (l : list A) :
  sum_list_with f (g <$> l) = sum_list_with (f ∘ g) l.
Proof. induction l as [|x l IH]; [done|]. simpl. f_equal. exact IH. Qed.

(** X14: the data of the bar chart has one entry for each distinct value of
    the column, carrying the number of times the value occurs; the entries
    come by decreasing count, and the counts add up to the length of the
    column. *)
Theorem value_counts_counts column :
  NoDup (fst <$> value_counts column)
  ∧ (∀ x n, (x, n) ∈ value_counts column
            ↔ x ∈ column ∧ n = occurrences x column)
  ∧ StronglySorted more_frequent (value_counts column)
  ∧ sum_list_with snd (value_counts column) = length column.
Proof.
  pose proof (value_counts_Permutation column) as Hperm.
  split; [|split; [|split]].
  - rewrite Hperm, <- list_fmap_compose.
    change (NoDup (id <$> distinct column)).
    rewrite list_fmap_id. apply NoDup_distinct.
  - intros x n. rewrite Hperm, list_elem_of_fmap. split.
    + intros (y & Heq & Hy). inversion Heq; subst.
      split; [by apply elem_of_distinct | done].
    + intros [Hx ->]. exists x. split; [done | by apply elem_of_distinct].
  - apply value_counts_sorted.
  - rewrite Hperm, sum_list_with_fmap.
    apply (sum_occurrences (distinct column) column).
    + apply NoDup_distinct.
    + intros a. by rewrite elem_of_distinct.
Qed.

(** X15: for a column that is not empty, the number of distinct values is
    at least one and at most the length of the column: the third metric of
    the page never exceeds the first. *)
Theorem distinct_values_bounds column :
  column ≠ [] →
  (1 ≤ length (value_counts column) ≤ length column)%nat.
Proof.
  intros Hne.
  rewrite (Permutation_length (value_counts_Permutation column)), length_fmap.
  split.
  - destruct column as [|a column]; [done|]. simpl. lia.
  - apply submseteq_length, NoDup_submseteq; [apply NoDup_distinct|].
    intros x. by rewrite elem_of_distinct.
Qed.

(** X17: each coordinate cell of a line is an integer numeral, the
    coordinate of the box rounded to the nearest integer: it reads back as
    an integer within one half of the coordinate. *)
Theorem coordinate_cells_round_trip result box r :
  row result box = Return r →
  ∀ i cell,
    (i, cell) ∈ [(0%nat, X_min r); (1%nat, Y_min r);
                 (2%nat, X_max r); (3%nat, Y_max r)] →
    ∃ z : Z,
      read_decimal cell = Some (z # 1)
      ∧ (Qabs (inject_Z z - coordinate i box) <= 1 # 2)%Q.
Proof.
  intros Hrow i cell Hcell. apply row_Return in Hrow as [_ ->].
  assert (cell = format_f 0 (coordinate i box)) as ->.
  { repeat (apply elem_of_cons in Hcell as [[= -> ->]|Hcell]; [done|]).
    by apply elem_of_nil in Hcell. }
  pose proof (rounded_0_close (coordinate i box)) as Hclose.
  rewrite read_decimal_format_f. unfold rounded in *.
  change (Z.to_pos (10 ^ Z.of_nat 0)) with 1%positive in *.
  by eexists.
Qed.

(** X12: without an upload, without a model, or without the button pressed,
    the results column shows its heading and at most one message, and what
    the detector would answer plays no role. *)
Theorem results_column_idle uploaded_file model button conf_threshold log :
  uploaded_file = None ∨ model = None ∨ button = false →
  results_column uploaded_file model button conf_threshold log
  = (Return (),
     log ++ header "📊 Résultats"
         :: match uploaded_file, model with
            | None, _ => [info "👆 Téléchargez une image pour commencer l'analyse"]
            | Some _, None => [error "❌ Le modèle n'a pas pu être chargé"]
            | Some _, Some _ => []
            end).
Proof.
  unfold AppStreamlit.results_column, bind, emit, ret.
  destruct uploaded_file as [image_np|], model as [handle|], button;
    intros [?|[?|?]]; try discriminate; simpl; by rewrite <- ?app_assoc.
Qed.

(** X13: with an upload, a model and the button pressed, a fault of the
    detector is not caught: it escapes the script, the heading being all
    that the column shows. *)
Theorem results_column_detector_fault image_np handle conf_threshold e log :
  model_predict handle image_np conf_threshold = Raise e →
  results_column (Some image_np) (Some handle) true conf_threshold log
  = (Raise e, log ++ [header "📊 Résultats"]).
Proof.
  intros Hm. unfold AppStreamlit.results_column, bind, emit, lift.
  by rewrite Hm.
Qed.

End Streamlit.

(** *** The page on the sample environment *)

(** The sample [float()] reads plain decimal numerals. *)
Lemma sample_float_reads_decimals : reads_decimals Sample.float_of_numeral.
Proof. intros s x Hs _. unfold Sample.float_of_numeral. by rewrite Hs. Qed.

(** C8, as stated, fails: for the scores 0.5000457763671875 (twice) and
    0.5001373291015625 the table shows 50.00%, 50.00% and 50.01%, and the
    metric is the mean of these, 50.00%, however [sum] adds them up; the
    mean of the scores is 0.50007629..., above 50.005%, and is 50.01% when
    printed in the same way. *)
Lemma mean_confidence_is_of_shown_values :
  snd (sample_show_result Sample.sum_left_to_right near_half []) !! 7%nat
  = Some (metric "Confiance moyenne" (MStr "50.00%"))
  ∧ snd (sample_show_result Sample.sum_compensated near_half []) !! 7%nat
    = Some (metric "Confiance moyenne" (MStr "50.00%"))
  ∧ (50005 # 100000 < foldr Qplus 0 (conf <$> boxes near_half) / 3)%Q
  ∧ format_percent 2 (mean Sample.sum_left_to_right (conf <$> boxes near_half))
    = "50.01%"
  ∧ format_percent 2 (mean Sample.sum_compensated (conf <$> boxes near_half))
    = "50.01%".
Proof. repeat split; by vm_compute. Qed.

(** The page for two cars and a bus that score 0.875, 0.625 and 0.75. *)
Lemma summary_metrics_witness :
  sample_show_result Sample.sum_left_to_right crossing []
  = (Return (),
     [image ["car"; "bus"; "car"] "Image avec détections";
      success "✅ 3 objet(s) détecté(s)";
      subheader "📋 Détails des détections";
      dataframe
        [{| Classe := "car"; Confiance := "87.50%";
            X_min := "100"; Y_min := "120"; X_max := "300"; Y_max := "260" |};
         {| Classe := "bus"; Confiance := "62.50%";
            X_min := "320"; Y_min := "80"; X_max := "600"; Y_max := "400" |};
         {| Classe := "car"; Confiance := "75.00%";
            X_min := "40"; Y_min := "200"; X_max := "90"; Y_max := "250" |}];
      subheader "📈 Statistiques";
      bar_chart [("car", 2%nat); ("bus", 1%nat)];
      metric "Total détections" (MInt 3);
      metric "Confiance moyenne" (MStr "75.00%");
      metric "Classes différentes" (MInt 2)]).
Proof.
  refine (summary_metrics Sample.save Sample.float_of_numeral
            Sample.sum_left_to_right crossing ["car"; "bus"; "car"] []
            sample_float_reads_decimals ltac:(discriminate) eq_refl _ eq_refl).
  repeat constructor; by vm_compute.
Defined.

(** The table of the street scene has three lines for three boxes. *)
Lemma rows_one_line_per_box_witness :
  forallb well_formed (boxes street) = true
  ∧ (row_of street <$> boxes street) = [] ++ (row_of street <$> boxes street)
  ∧ length (row_of street <$> boxes street) = (length (@nil Row) + length (boxes street))%nat.
Proof.
  exact (rows_one_line_per_box street (boxes street) []
           (row_of street <$> boxes street) eq_refl).
Defined.

(** An image without vehicles. *)
Lemma show_result_empty_batch_witness :
  sample_show_result Sample.sum_left_to_right empty_road []
  = (Return (),
     [image [] "Image avec détections";
      warning "⚠️ Aucun objet détecté. Essayez de réduire le seuil de confiance."])
  ∧ avg_conf Sample.float_of_numeral Sample.sum_left_to_right []
    = Raise (Exn "division by zero").
Proof.
  exact (show_result_empty_batch Sample.save Sample.float_of_numeral
           Sample.sum_left_to_right empty_road [] [] eq_refl eq_refl).
Defined.

(** The bus without its fourth coordinate: two objects announced, no table. *)
Lemma show_result_malformed_box_witness :
  ∃ e,
    sample_show_result Sample.sum_left_to_right truncated []
    = (Raise e,
       [image ["car"; "bus"] "Image avec détections";
        success "✅ 2 objet(s) détecté(s)";
        subheader "📋 Détails des détections"]).
Proof.
  exact (show_result_malformed_box Sample.save Sample.float_of_numeral
           Sample.sum_left_to_right truncated ["car"; "bus"] [] eq_refl eq_refl).
Defined.

(** No upload yet: the heading and the invitation to upload. *)
Lemma results_column_idle_witness :
  sample_results_column (Sample.detector Sample.street) None (Some ()) true (1 # 2) []
  = (Return (),
     [header "📊 Résultats";
      info "👆 Téléchargez une image pour commencer l'analyse"]).
Proof.
  exact (results_column_idle Sample.save Sample.float_of_numeral
           Sample.sum_left_to_right (Sample.slider (Sample.detector Sample.street))
           None (Some ()) true (1 # 2) [] (or_introl eq_refl)).
Defined.

(** The broken detector behind the button. *)
Lemma results_column_detector_fault_witness :
  sample_results_column Sample.broken_detector (Some Sample.jpeg) (Some ()) true (1 # 2) []
  = (Raise (Exn "CUDA out of memory"), [header "📊 Résultats"]).
Proof.
  exact (results_column_detector_fault Sample.save Sample.float_of_numeral
           Sample.sum_left_to_right (Sample.slider Sample.broken_detector)
           Sample.jpeg () (1 # 2) (Exn "CUDA out of memory") [] eq_refl).
Defined.

(** Two cars and a bus: between one and three classes. *)
Lemma distinct_values_bounds_witness :
  (1 ≤ length (value_counts ["car"; "car"; "bus"]) ≤ length ["car"; "car"; "bus"])%nat.
Proof.
  exact (distinct_values_bounds ["car"; "car"; "bus"] ltac:(discriminate)).
Defined.

(** The left edge of the car. *)
Lemma coordinate_cells_round_trip_witness :
  ∃ z : Z,
    read_decimal "100" = Some (z # 1)
    ∧ (Qabs (inject_Z z - coordinate 0 car) <= 1 # 2)%Q.
Proof.
  exact (coordinate_cells_round_trip street car (row_of street car) eq_refl
           0%nat "100" ltac:(by left)).
Defined.

End AppStreamlitProofs.

(** ** Both front-ends *)




(** X18: for a box of a class the model names, the record of the API and
    the line of the page carry the same class name; for a class it does not
    name they differ, the one saying "Class" and the other "Classe". *)
Theorem class_names_agree_iff_known result box :
  well_formed box = true →
  ∃ d r,
    App.detection result box = Return d
    ∧ AppStreamlit.row result box = Return r
    ∧ (jget "class_name" d = Some (JStr (AppStreamlit.Classe r))
       ↔ is_Some (names result !! cls box)).
Proof.
  intros Hwf. exists (App.record_of result box), (AppStreamlit.row_of result box).
  split; [by apply AppProofs.detection_well_formed|].
  split; [by apply AppStreamlitProofs.row_well_formed|].
  unfold App.record_of, AppStreamlit.row_of, AppStreamlit.class_name.
  cbn [jget assoc AppStreamlit.Classe]. simpl.
  destruct (names result !! cls box) as [name|]; simpl.
  - split; [by eexists | done].
  - split; [|by intros [? ?]]. intros Heq. inversion Heq.
Qed.

(** X19: a weights file that exists and that [YOLO] cannot load makes
    [load_model] of the API raise, whereas [load_model] of the page catches
    the fault, shows its message and returns None. *)
Theorem corrupt_weights_raise_in_the_api_only
    {Handle Picture : Type} (path_exists : string → bool)
    (YOLO : string → outcome Handle) e (log : list (AppStreamlit.element Picture)) :
  path_exists "best.pt" = true →
  YOLO "best.pt" = Raise e →
  App.load_model path_exists YOLO = Raise e
  ∧ AppStreamlit.load_model path_exists YOLO log
    = (Return None,
       log ++ [AppStreamlit.error
                 ("❌ Erreur lors du chargement du modèle : " +:+ exn_msg e)]).
Proof.
  intros Hexists Hyolo.
  unfold App.load_model, AppStreamlit.load_model, App.MODEL_PATH.
  rewrite Hexists, Hyolo. done.
Qed.

(** The car of the street scene is a car in both front-ends. *)
Lemma class_names_agree_iff_known_witness :
  ∃ d r,
    App.detection AppStreamlit.street AppStreamlit.car = Return d
    ∧ AppStreamlit.row AppStreamlit.street AppStreamlit.car = Return r
    ∧ (jget "class_name" d = Some (JStr (AppStreamlit.Classe r))
       ↔ is_Some (names AppStreamlit.street !! cls AppStreamlit.car)).
Proof.
  exact (class_names_agree_iff_known AppStreamlit.street AppStreamlit.car eq_refl).
Defined.

(** A weights file that is there and does not load. *)
Lemma corrupt_weights_raise_in_the_api_only_witness :
  App.load_model (Handle := ()) (λ _, true) (λ _, Raise (Exn "invalid load key"))
  = Raise (Exn "invalid load key")
  ∧ AppStreamlit.load_model (Handle := ()) (Picture := ())
      (λ _, true) (λ _, Raise (Exn "invalid load key")) []
    = (Return None,
       [AppStreamlit.error "❌ Erreur lors du chargement du modèle : invalid load key"]).
Proof.
  exact (corrupt_weights_raise_in_the_api_only (Handle := ()) (Picture := ())
           (λ _, true) (λ _, Raise (Exn "invalid load key"))
           (Exn "invalid load key") [] eq_refl eq_refl).
Defined.
